(** * RepoFilePlugin and the document generator's entry point

    A shallow embedding of [plugins/repo_file_plugin.py] and of the tail of
    [main.py], over a model of the part of the Python runtime they call:
    [posixpath], a POSIX file tree with access bits, the builtin [open] in
    text mode, [os.listdir] and [os.walk].

    Conventions.
    - A Python [str] is a Rocq [string], read as the UTF-8 bytes of the text;
      a file name is the byte string the file system stores.
    - The file tree holds directories and regular files (no symbolic links).
      Each node carries the access the calling process has to it.
    - Paths with a NUL byte, or longer than the system allows, are not told
      apart from other paths: statements on what a failed lookup raises
      are made for the paths [Limits.plain_path] accepts.
    - The locale encoding used by [open(path)] is UTF-8. *)

From Stdlib Require Import String Ascii List Bool NArith.
Import ListNotations.
Open Scope string_scope.
Open Scope list_scope.

(* ===================================================================== *)
(** ** Strings *)

Module Str.

Definition sep : ascii := "/"%char.

Definition is_sep (c : ascii) : bool := Ascii.eqb c sep.

(** [s.startswith('/')] *)
Definition startswith_sep (s : string) : bool :=
  match s with
  | String c _ => is_sep c
  | EmptyString => false
  end.

(** [s.endswith('/')] *)
Fixpoint endswith_sep (s : string) : bool :=
  match s with
  | EmptyString => false
  | String c EmptyString => is_sep c
  | String _ s' => endswith_sep s'
  end.

(** ['/' in s] *)
Fixpoint has_sep (s : string) : bool :=
  match s with
  | EmptyString => false
  | String c s' => is_sep c || has_sep s'
  end.

(** [s.split('/')]: never empty, [""] for the empty string. *)
Fixpoint split (s : string) : list string :=
  match s with
  | EmptyString => [""]
  | String c s' =>
      if is_sep c then "" :: split s'
      else match split s' with
           | h :: t => String c h :: t
           | [] => [String c ""]
           end
  end.

(** [s.rstrip('/')] *)
Fixpoint rstrip (s : string) : string :=
  match s with
  | EmptyString => ""
  | String c s' =>
      let r := rstrip s' in
      if is_sep c && String.eqb r "" then "" else String c r
  end.

(** [s == '/' * len(s)] *)
Fixpoint all_sep (s : string) : bool :=
  match s with
  | EmptyString => true
  | String c s' => is_sep c && all_sep s'
  end.

(** [s[:s.rfind('/') + 1]] *)
Fixpoint upto_last_sep (s : string) : string :=
  match s with
  | EmptyString => ""
  | String c s' => if has_sep s then String c (upto_last_sep s') else ""
  end.

(** [sep.join(l)] *)
Definition join_with (d : string) (l : list string) : string :=
  String.concat d l.

End Str.

(* ===================================================================== *)
(** ** posixpath *)

Module PosixPath.
Import Str.

(** [os.path.isabs] *)
Definition isabs (s : string) : bool := startswith_sep s.

(** [os.path.join(a, b)] with one tail component, as the plugin calls it. *)
Definition join (a b : string) : string :=
  if startswith_sep b then b
  else if String.eqb a "" || endswith_sep a then (a ++ b)%string
  else (a ++ "/" ++ b)%string.

(** [os.path.dirname] *)
Definition dirname (p : string) : string :=
  let head := upto_last_sep p in
  if negb (String.eqb head "") && negb (all_sep head) then rstrip head
  else head.

(** The loop of [os.path.normpath] over the components. [initial] tells
    whether the path starts with a slash. *)
Definition norm_step (initial : bool) (new_comps : list string) (comp : string)
  : list string :=
  if String.eqb comp "" || String.eqb comp "." then new_comps
  else if negb (String.eqb comp "..")
          || (negb initial && match new_comps with [] => true | _ => false end)
          || (match new_comps with
              | [] => false
              | _ => String.eqb (last new_comps "") ".."
              end)
       then new_comps ++ [comp]
       else match new_comps with
            | [] => new_comps
            | _ => removelast new_comps
            end.

(** Number of leading slashes [normpath] keeps: two exactly when the path
    starts with two slashes and not with three. *)
Definition initial_slashes (path : string) : nat :=
  match path with
  | String c0 (String c1 (String c2 _)) =>
      if is_sep c0 then (if is_sep c1 && negb (is_sep c2) then 2 else 1) else 0
  | String c0 (String c1 EmptyString) =>
      if is_sep c0 then (if is_sep c1 then 2 else 1) else 0
  | String c0 EmptyString => if is_sep c0 then 1 else 0
  | EmptyString => 0
  end.

Fixpoint slashes (n : nat) : string :=
  match n with
  | O => ""
  | S k => String sep (slashes k)
  end.

(** [os.path.normpath] *)
Definition normpath (path : string) : string :=
  if String.eqb path "" then "."
  else
    let n := initial_slashes path in
    let comps := fold_left (norm_step (startswith_sep path)) (split path) [] in
    let p := (slashes n ++ join_with "/" comps)%string in
    if String.eqb p "" then "." else p.

(** [os.path.abspath], with [os.getcwd()] passed in. *)
Definition abspath (cwd path : string) : string :=
  normpath (if isabs path then path else join cwd path).

End PosixPath.

(* ===================================================================== *)
(** ** Exceptions, results and the effect monad *)

Module Py.

(** What an exception carries: the file name of a failed system call, or
    the message the raising code passed. *)
Inductive exn_args :=
| OsArgs (filename : string)
| Msg (message : string).

Inductive exn :=
| FileNotFoundError (a : exn_args)
| PermissionError (a : exn_args)
| NotADirectoryError (a : exn_args)
| IsADirectoryError (a : exn_args)
| UnicodeDecodeError
| IndexError (message : string).

(** [except FileNotFoundError] *)
Definition is_FileNotFoundError (e : exn) : bool :=
  match e with
  | FileNotFoundError _ => true
  | _ => false
  end.

Inductive result (A : Type) :=
| Ok (a : A)
| Raise (e : exn).
Arguments Ok {A} a.
Arguments Raise {A} e.

(** A computation over a mutable state [St]; the state survives a raise
    (what was printed before an exception stays printed). *)
Definition M (St A : Type) : Type := St -> result A * St.

Definition ret {St A} (a : A) : M St A := fun st => (Ok a, st).

Definition raise {St A} (e : exn) : M St A := fun st => (Raise e, st).

Definition bind {St A B} (m : M St A) (k : A -> M St B) : M St B :=
  fun st =>
    match m st with
    | (Ok a, st') => k a st'
    | (Raise e, st') => (Raise e, st')
    end.

(** The outcome of a call that does not touch the state. *)
Definition lift {St A} (r : result A) : M St A := fun st => (r, st).

(** [try: body  except <class>: handler] *)
Definition try_except {St A} (body : M St A) (catches : exn -> bool)
           (handler : exn -> M St A) : M St A :=
  fun st =>
    match body st with
    | (Ok a, st') => (Ok a, st')
    | (Raise e, st') => if catches e then handler e st' else (Raise e, st')
    end.

(** States that hold the process's standard output, one entry per
    [print] call. *)
Class HasStdout (St : Type) := {
  get_stdout : St -> list string;
  set_stdout : list string -> St -> St
}.

Definition print {St} `{HasStdout St} (line : string) : M St unit :=
  fun st => (Ok tt, set_stdout (get_stdout st ++ [line]) st).

Definition result_bind {A B} (r : result A) (k : A -> result B) : result B :=
  match r with
  | Ok a => k a
  | Raise e => Raise e
  end.

End Py.

Declare Scope py_scope.
Notation "x <- m ;; k" := (Py.bind m (fun x => k))
  (at level 61, m at next level, right associativity) : py_scope.
Notation "m ;;; k" := (Py.bind m (fun _ => k))
  (at level 61, right associativity) : py_scope.

(* ===================================================================== *)
(** ** Text decoding *)

Module Text.

Definition byte (c : ascii) : N := N_of_ascii c.

Definition between (lo hi : N) (c : ascii) : bool :=
  ((lo <=? byte c) && (byte c <=? hi))%N.

Definition cont (c : ascii) : bool := between 128 191 c.

(** Strict UTF-8, as the [utf-8] codec decodes it: shortest form only, no
    surrogates, nothing above U+10FFFF. *)
Fixpoint utf8_valid (s : string) : bool :=
  match s with
  | EmptyString => true
  | String c0 s1 =>
      if between 0 127 c0 then utf8_valid s1
      else if between 194 223 c0 then
        match s1 with
        | String c1 s2 => cont c1 && utf8_valid s2
        | _ => false
        end
      else if between 224 239 c0 then
        match s1 with
        | String c1 (String c2 s3) =>
            (if between 224 224 c0 then between 160 191 c1
             else if between 237 237 c0 then between 128 159 c1
             else cont c1)
            && cont c2 && utf8_valid s3
        | _ => false
        end
      else if between 240 244 c0 then
        match s1 with
        | String c1 (String c2 (String c3 s4)) =>
            (if between 240 240 c0 then between 144 191 c1
             else if between 244 244 c0 then between 128 143 c1
             else cont c1)
            && cont c2 && cont c3 && utf8_valid s4
        | _ => false
        end
      else false
  end.

Definition CR : ascii := "013"%char.
Definition LF : ascii := "010"%char.

(** Universal newlines on reading ([newline=None]): ["\r\n"] and a lone
    ["\r"] both become ["\n"]. *)
Fixpoint translate_newlines (s : string) : string :=
  match s with
  | EmptyString => ""
  | String c s1 =>
      if Ascii.eqb c CR then
        match s1 with
        | String c1 s2 =>
            if Ascii.eqb c1 LF then String LF (translate_newlines s2)
            else String LF (translate_newlines s1)
        | EmptyString => String LF ""
        end
      else String c (translate_newlines s1)
  end.

(** [c in s], for a character. *)
Fixpoint has_char (c : ascii) (s : string) : bool :=
  match s with
  | EmptyString => false
  | String d s' => Ascii.eqb d c || has_char c s'
  end.

(** What [file.read()] makes of the bytes of a file opened in text mode. *)
Definition decode (raw : string) : Py.result string :=
  if utf8_valid raw then Py.Ok (translate_newlines raw)
  else Py.Raise Py.UnicodeDecodeError.

End Text.

(* ===================================================================== *)
(** ** The file tree and the system calls *)

Module FS.
Import Py.

(** A regular file with its bytes, or a directory with its entries in the
    order the system enumerates them. [r] is read access, [x] is search
    access, both for the calling process. *)
#[warnings="-register-all"]
Inductive node :=
| File (r : bool) (data : string)
| Dir (r x : bool) (entries : list (string * node)).

Inductive errno := ENOENT | EACCES | ENOTDIR | EISDIR.

Definition is_dir (n : node) : bool :=
  match n with
  | Dir _ _ _ => true
  | File _ _ => false
  end.

Fixpoint lookup (name : string) (es : list (string * node)) : option node :=
  match es with
  | [] => None
  | (k, n) :: es' => if String.eqb k name then Some n else lookup name es'
  end.

(** Where a walk stands: the entries gone through, innermost first, each
    with the directory it was found in. *)
Definition trail := list (string * node).

(** The names from the top of the tree down to the position. *)
Definition location (tr : trail) : list string := rev (map fst tr).

(** Path resolution, one component at a time. [priv] switches the access
    checks off. *)
Fixpoint walk_path (priv : bool) (comps : list string) (tr : trail) (cur : node)
  : errno + (trail * node) :=
  match comps with
  | [] => inr (tr, cur)
  | c :: rest =>
      match cur with
      | File _ _ => inl ENOTDIR
      | Dir _ x es =>
          if String.eqb c "" then walk_path priv rest tr cur
          else if negb (x || priv) then inl EACCES
          else if String.eqb c "." then walk_path priv rest tr cur
          else if String.eqb c ".." then
            match tr with
            | [] => walk_path priv rest [] cur
            | (_, parent) :: tr' => walk_path priv rest tr' parent
            end
          else
            match lookup c es with
            | None => inl ENOENT
            | Some child => walk_path priv rest ((c, cur) :: tr) child
            end
      end
  end.

(** The machine as the program sees it. *)
Record env := {
  fs : node;        (* the directory [/] *)
  cwd : string      (* [os.getcwd()] *)
}.

Definition resolve_as (priv : bool) (e : env) (path : string)
  : errno + (trail * node) :=
  if String.eqb path "" then inl ENOENT
  else if PosixPath.isabs path then walk_path priv (Str.split path) [] (fs e)
  else walk_path priv (Str.split (cwd e) ++ Str.split path) [] (fs e).

(** Resolution with the caller's access rights. *)
Definition resolve := resolve_as false.

(** Resolution that only asks what is there. *)
Definition stat_any := resolve_as true.

(** The exception an errno turns into. *)
Definition os_error (e : errno) (filename : string) : exn :=
  match e with
  | ENOENT => FileNotFoundError (OsArgs filename)
  | EACCES => PermissionError (OsArgs filename)
  | ENOTDIR => NotADirectoryError (OsArgs filename)
  | EISDIR => IsADirectoryError (OsArgs filename)
  end.

(** An open text file: the bytes still to be read. *)
Record file_object := { raw : string }.

(** [open(path)]: read-only, text mode. *)
Definition open (e : env) (path : string) : result file_object :=
  match resolve e path with
  | inl err => Raise (os_error err path)
  | inr (_, File r data) =>
      if r then Ok {| raw := data |} else Raise (os_error EACCES path)
  | inr (_, Dir r _ _) =>
      if r then Raise (os_error EISDIR path) else Raise (os_error EACCES path)
  end.

(** [file.read()] *)
Definition read (f : file_object) : result string := Text.decode (raw f).

(** [os.listdir(path)] *)
Definition listdir (e : env) (path : string) : result (list string) :=
  match resolve e path with
  | inl err => Raise (os_error err path)
  | inr (_, File _ _) => Raise (os_error ENOTDIR path)
  | inr (_, Dir r _ es) =>
      if r then Ok (map fst es) else Raise (os_error EACCES path)
  end.

Definition dir_names (es : list (string * node)) : list string :=
  map fst (filter (fun p => is_dir (snd p)) es).

Definition nondir_names (es : list (string * node)) : list string :=
  map fst (filter (fun p => negb (is_dir (snd p))) es).

(** [os.walk(top)] from the node [top] names: top-down, errors ignored.
    A directory that cannot be listed yields nothing; one that can be
    listed but not searched yields itself, and its subdirectories fail to
    list in turn. *)
Fixpoint walk_node (top : string) (n : node)
  : list (string * list string * list string) :=
  match n with
  | File _ _ => []
  | Dir r x es =>
      if r then
        (top, dir_names es, nondir_names es)
          :: (if x then
                (fix go (l : list (string * node)) :=
                   match l with
                   | [] => []
                   | (name, child) :: l' =>
                       walk_node (PosixPath.join top name) child ++ go l'
                   end) es
              else [])
      else []
  end.

(** [os.walk(top)], as the list of the triples it yields. *)
Definition walk (e : env) (top : string)
  : list (string * list string * list string) :=
  match resolve e top with
  | inl _ => []
  | inr (_, n) => walk_node top n
  end.

(** Names a directory entry can have. *)
Definition good_name (s : string) : bool :=
  negb (String.eqb s "") && negb (String.eqb s ".") && negb (String.eqb s "..")
  && negb (Str.has_sep s).

Fixpoint distinct (l : list string) : bool :=
  match l with
  | [] => true
  | a :: l' => negb (existsb (String.eqb a) l') && distinct l'
  end.

(** A tree as a file system presents it: proper, distinct names in every
    directory. *)
Fixpoint wf_node (n : node) : bool :=
  match n with
  | File _ _ => true
  | Dir _ _ es =>
      forallb good_name (map fst es) && distinct (map fst es)
      && (fix go (l : list (string * node)) :=
            match l with
            | [] => true
            | (_, child) :: l' => wf_node child && go l'
            end) es
  end.

Definition wf_env (e : env) : bool :=
  is_dir (fs e) && wf_node (fs e) && PosixPath.isabs (cwd e).

Definition wf_trail (tr : trail) : bool :=
  forallb (fun p => wf_node (snd p)) tr.

(** [loc] is at or below [root]: the names of [root] start it. *)
Fixpoint under (root loc : list string) : bool :=
  match root, loc with
  | [], _ => true
  | _ :: _, [] => false
  | a :: root', b :: loc' => String.eqb a b && under root' loc'
  end.

(** The path has no [..] component. *)
Definition no_dotdot (path : string) : bool :=
  forallb (fun c => negb (String.eqb c "..")) (Str.split path).

(** Is there a regular file at [path], whatever the caller's rights? *)
Definition file_at (e : env) (path : string) : bool :=
  match stat_any e path with
  | inr (_, File _ _) => true
  | _ => false
  end.

(** The bytes of the regular file at [path], whatever the caller's
    rights. *)
Definition content_at (e : env) (path : string) : option string :=
  match stat_any e path with
  | inr (_, File _ data) => Some data
  | _ => None
  end.

(** Where [path] leads the caller, as names from [/] down. *)
Definition location_of (e : env) (path : string) : option (list string) :=
  match resolve e path with
  | inr (tr, _) => Some (location tr)
  | inl _ => None
  end.


End FS.

(* ===================================================================== *)
(** ** plugins/repo_file_plugin.py *)

Module Plugin.
Import Py.
Local Open Scope py_scope.

(** The object: one attribute. *)
Record RepoFilePlugin := { root_dir : string }.

(** The state a method runs in: the object it is called on and the
    process's standard output. *)
Record state := {
  self : RepoFilePlugin;
  stdout : list string
}.

#[export] Instance state_stdout : HasStdout state := {
  get_stdout := stdout;
  set_stdout := fun out st => {| self := self st; stdout := out |}
}.

(** [self.root_dir] *)
Definition get_root_dir : M state string :=
  fun st => (Ok (root_dir (self st)), st).

(** [self.root_dir = v] *)
Definition set_root_dir (v : string) : M state unit :=
  fun st => (Ok tt, {| self := {| root_dir := v |}; stdout := stdout st |}).

Definition nl : string := String Text.LF "".

(** [RepoFilePlugin.__init__]; [__file__] is the path of the module's
    source file. *)
Definition __init__ (e : FS.env) (__file__ : string) : M state unit :=
  set_root_dir
    (PosixPath.abspath (FS.cwd e)
       (PosixPath.join (PosixPath.dirname __file__) "..")).

(** [RepoFilePlugin.read_file_by_path] *)
Definition read_file_by_path (e : FS.env) (path : string) : M state string :=
  root <- get_root_dir ;;
  let full_path := PosixPath.join root path in
  try_except
    (file <- lift (FS.open e full_path) ;;
     lift (FS.read file))
    is_FileNotFoundError
    (fun _ =>
       raise (FileNotFoundError
                (Msg ("File " ++ full_path ++ " not found in repository."))))%string.

(** [file_name in files] *)
Definition contains (file_name : string) (files : list string) : bool :=
  existsb (String.eqb file_name) files.

(** The [for] loop of [read_file_by_name] over what [os.walk] yields, with
    the [raise] that follows it. *)
Fixpoint search (e : FS.env) (file_name : string)
         (walk : list (string * list string * list string)) : M state string :=
  match walk with
  | [] =>
      raise (FileNotFoundError
               (Msg ("File " ++ file_name ++ " not found in repository.")))%string
  | (root, dirs, files) :: rest =>
      if contains file_name files then
        print ("Found file " ++ file_name ++ " in " ++ root ++ ".")%string ;;;
        file <- lift (FS.open e (PosixPath.join root file_name)) ;;
        lift (FS.read file)
      else search e file_name rest
  end.

(** [RepoFilePlugin.read_file_by_name] *)
Definition read_file_by_name (e : FS.env) (file_name : string) : M state string :=
  root <- get_root_dir ;;
  search e file_name (FS.walk e root).

(** [RepoFilePlugin.list_directory] *)
Definition list_directory (e : FS.env) (path : string) : M state string :=
  root <- get_root_dir ;;
  let full_path := PosixPath.join root path in
  try_except
    (files <- lift (FS.listdir e full_path) ;;
     ret (Str.join_with nl files))
    is_FileNotFoundError
    (fun _ =>
       raise (FileNotFoundError
                (Msg ("Directory " ++ full_path ++ " not found in repository."))))%string.

End Plugin.

(* ===================================================================== *)
(** ** main.py *)

Module Main.
Import Py.
Local Open Scope py_scope.

(** The two attributes of a chat message that [main] reads. *)
Record ChatMessageContent := {
  name : option string;
  content : string
}.

#[export] Instance list_stdout : HasStdout (list string) := {
  get_stdout := fun out => out;
  set_stdout := fun out _ => out
}.

(** [f"{x}"] for an optional string. *)
Definition format_name (n : option string) : string :=
  match n with
  | Some s => s
  | None => "None"
  end.

(** [async for response in group_chat.invoke(): print(...)] *)
Fixpoint announce (responses : list ChatMessageContent) : M (list string) unit :=
  match responses with
  | [] => ret tt
  | response :: rest =>
      print ("==== " ++ format_name (name response) ++ " just responded ====")%string ;;;
      announce rest
  end.

(** [message.name == agents[0].name] *)
Definition authored_by (agent_name : string) (message : ChatMessageContent) : bool :=
  match name message with
  | Some n => String.eqb n agent_name
  | None => false
  end.

(** The loop that fills [content_history]. *)
Fixpoint collect (agent_name : string) (messages : list ChatMessageContent)
         (content_history : list ChatMessageContent) : list ChatMessageContent :=
  match messages with
  | [] => content_history
  | message :: rest =>
      if authored_by agent_name message
      then collect agent_name rest (content_history ++ [message])
      else collect agent_name rest content_history
  end.

(** [group_chat.get_chat_messages(agent)]: the agent's channel history,
    newest message first. [history] is in order of arrival. *)
Definition get_chat_messages (history : list ChatMessageContent)
  : list ChatMessageContent := rev history.

(** The body of [main] from the response loop on. [agent_name] is
    [agents[0].name]; [responses] is what [group_chat.invoke()] yields;
    [history] is the chat history of [agents[0]] when the loop ends. *)
Definition main (agent_name : string)
           (responses history : list ChatMessageContent) : M (list string) unit :=
  announce responses ;;;
  let content_history := collect agent_name (get_chat_messages history) [] in
  print "Final content:" ;;;
  match content_history with
  | m :: _ => print (content m)
  | [] => raise (IndexError "list index out of range")
  end.

End Main.

(* ===================================================================== *)
(** ** A sample machine *)

Module Sample.
Import FS.

Definition crlf : string := String Text.CR (String Text.LF "").

(** [/srv/app] is the repository; [/srv/secret.txt] lies outside it;
    [/srv/app/locked] cannot be listed or searched. *)
Definition tree : node :=
  Dir true true
    [("srv",
      Dir true true
        [("app",
          Dir true true
            [("main.py", File true "print(1)");
             ("notes.txt", File true ("a" ++ crlf ++ "b")%string);
             ("locked",
              Dir false false [("hidden.txt", File true "h")]);
             ("plugins",
              Dir true true
                [("repo_file_plugin.py", File true "import os");
                 ("main.py", File true "shadowed");
                 ("blob.bin", File true (String "255"%char ""));
                 ("private.txt", File false "p")]);
             ("docs", Dir true true [])]);
         ("secret.txt", File true "top secret")])].

Definition machine : env := {| fs := tree; cwd := "/home/u" |}.

Definition plugin_file : string := "/srv/app/plugins/repo_file_plugin.py".

Definition fresh : Plugin.state :=
  {| Plugin.self := {| Plugin.root_dir := "" |}; Plugin.stdout := [] |}.

(** The state after [RepoFilePlugin()]. *)
Definition st0 : Plugin.state := snd (Plugin.__init__ machine plugin_file fresh).

End Sample.

(* ===================================================================== *)
(** ** Vocabulary for the statements *)

Module Obs.
Import Py Plugin.

(** The state after one [print]. *)
Definition printed (st : state) (line : string) : state :=
  {| self := self st; stdout := stdout st ++ [line] |}.

Definition found_line (file_name root : string) : string :=
  ("Found file " ++ file_name ++ " in " ++ root ++ ".")%string.

Definition file_missing (full_path : string) : exn :=
  FileNotFoundError (Msg ("File " ++ full_path ++ " not found in repository."))%string.

(** The line [main] prints for a response. *)
Definition responded_line (response : Main.ChatMessageContent) : string :=
  ("==== " ++ Main.format_name (Main.name response) ++ " just responded ====")%string.

Definition directory_missing (full_path : string) : exn :=
  FileNotFoundError
    (Msg ("Directory " ++ full_path ++ " not found in repository."))%string.

(** [with open(p) as file: return file.read()] *)
Definition read_text (e : FS.env) (p : string) : result string :=
  result_bind (FS.open e p) FS.read.

End Obs.

(* ===================================================================== *)
(** ** Whole-tree predicates *)

Module Tree.
Import FS.

(** A regular file called [name] lies somewhere in the tree [n]. *)
Fixpoint occurs (name : string) (n : node) : bool :=
  match n with
  | File _ _ => false
  | Dir _ _ es =>
      existsb (fun p => String.eqb name (fst p) && negb (is_dir (snd p))) es
      || (fix go (l : list (string * node)) :=
            match l with
            | [] => false
            | (_, child) :: l' => occurs name child || go l'
            end) es
  end.

(** The process may list and search every directory of the tree [n]. *)
Fixpoint open_tree (n : node) : bool :=
  match n with
  | File _ _ => true
  | Dir r x es =>
      r && x
      && (fix go (l : list (string * node)) :=
            match l with
            | [] => true
            | (_, child) :: l' => open_tree child && go l'
            end) es
  end.

(** What follows the first name in the string [list_directory] returns:
    nothing, or a newline and the listing of the other names. *)
Definition listing_tail (l : list string) : string :=
  match l with
  | [] => ""
  | _ => String Text.LF (Str.join_with Plugin.nl l)
  end.

(** No newline character in the name. *)
Definition one_line (s : string) : bool := negb (Text.has_char Text.LF s).

End Tree.

(* ===================================================================== *)
(** ** A second sample machine *)

Module Sample2.
Import FS.

(** [/repo/a.txt] cannot be read; [/repo/sub/a.txt] can. *)
Definition tree : node :=
  Dir true true
    [("repo",
      Dir true true
        [("a.txt", File false "first");
         ("sub", Dir true true [("a.txt", File true "second")])])].

Definition machine : env := {| fs := tree; cwd := "/" |}.

Definition st0 : Plugin.state :=
  {| Plugin.self := {| Plugin.root_dir := "/repo" |}; Plugin.stdout := [] |}.

End Sample2.

(* ===================================================================== *)
(** ** Paths the system takes as they are *)

Module Limits.

(** The longest name of a directory entry, in bytes. *)
Definition NAME_MAX : nat := 255.

(** A path of this many bytes or more is refused. *)
Definition PATH_MAX : nat := 4096.

Definition NUL : ascii := "000"%char.

(** Paths the tree model speaks for. A path holding a NUL byte is refused
    by [open], [os.listdir] and [os.scandir] with [ValueError] before the
    system sees it, and a path of [PATH_MAX] bytes or with a component of
    more than [NAME_MAX] bytes fails with [ENAMETOOLONG]; the model has
    neither outcome, so statements on what a failed lookup raises are made
    for plain paths. *)
Definition plain_path (p : string) : bool :=
  negb (Text.has_char NUL p)
  && Nat.ltb (String.length p) PATH_MAX
  && forallb (fun c => Nat.leb (String.length c) NAME_MAX) (Str.split p).

End Limits.

(* ===================================================================== *)
(** * Properties *)

Import Py.

(** ** Strings and paths *)

Section StringFacts.
Import Str.

Lemma split_nonempty (s : string) : split s <> [].
Proof.
  induction s as [|c s IH]; simpl; [discriminate|].
  destruct (is_sep c); [discriminate|].
  destruct (split s); discriminate.
Qed.

Lemma split_app_sep (a b : string) :
  split (a ++ String sep b) = split a ++ split b.
Proof.
  induction a as [|c a IH]; simpl.
  - reflexivity.
  - destruct (is_sep c).
    + rewrite IH. reflexivity.
    + rewrite IH. destruct (split a) as [|h t] eqn:E.
      * exfalso. exact (split_nonempty a E).
      * reflexivity.
Qed.

Lemma split_no_sep (s : string) : has_sep s = false -> split s = [s].
Proof.
  induction s as [|c s IH]; simpl; intros H; [reflexivity|].
  apply orb_false_iff in H. destruct H as [Hc Hs].
  rewrite Hc, (IH Hs). reflexivity.
Qed.

Lemma endswith_sep_inv (a : string) :
  endswith_sep a = true -> exists a', a = (a' ++ String sep "")%string.
Proof.
  induction a as [|c a IH]; simpl; [discriminate|].
  destruct a as [|d a'].
  - intros H. exists "". unfold is_sep in H.
    apply Ascii.eqb_eq in H. subst c. reflexivity.
  - intros H. destruct (IH H) as [a0 E]. exists (String c a0).
    simpl. rewrite <- E. reflexivity.
Qed.

Lemma append_assoc_sep (a b : string) :
  ((a ++ String sep "") ++ b = a ++ String sep b)%string.
Proof. induction a as [|c a IH]; simpl; [reflexivity|]. now rewrite IH. Qed.

Lemma startswith_sep_app (a b : string) :
  startswith_sep a = true -> startswith_sep (a ++ b) = true.
Proof. destruct a; simpl; [discriminate|auto]. Qed.

Lemma startswith_sep_nonempty (a : string) :
  startswith_sep a = true -> String.eqb a "" = false.
Proof. destruct a; simpl; [discriminate|reflexivity]. Qed.

End StringFacts.

Section PathFacts.
Import Str PosixPath.

Lemma join_isabs (a b : string) :
  isabs a = true -> isabs (join a b) = true.
Proof.
  intros Ha. unfold join, isabs in *.
  destruct (startswith_sep b) eqn:Hb; [exact Hb|].
  destruct (String.eqb a "" || endswith_sep a);
    apply startswith_sep_app; exact Ha.
Qed.

Lemma initial_slashes_pos (p : string) :
  startswith_sep p = true -> exists k, initial_slashes p = S k.
Proof.
  destruct p as [|c0 [|c1 [|c2 p]]]; simpl; [discriminate| | |];
    intros ->; [exists 0 | destruct (is_sep c1) | destruct (is_sep c1 && negb (is_sep c2))];
    eauto.
Qed.

Lemma normpath_isabs (p : string) :
  isabs p = true -> isabs (normpath p) = true.
Proof.
  unfold isabs, normpath. intros Hp.
  rewrite (startswith_sep_nonempty _ Hp).
  destruct (initial_slashes_pos _ Hp) as [k ->]. reflexivity.
Qed.

Lemma abspath_isabs (cwd p : string) :
  isabs cwd = true -> isabs (abspath cwd p) = true.
Proof.
  intros Hc. unfold abspath. apply normpath_isabs.
  destruct (isabs p) eqn:Hp; [exact Hp|]. now apply join_isabs.
Qed.

(** The components [join a b] resolves through, for an absolute [a] and a
    relative [b]: those of [a], then those of [b]. *)
Lemma split_join_rel (a b : string) :
  isabs a = true -> isabs b = false ->
  exists a0, split (join a b) = a0 ++ split b
             /\ (split a = a0 \/ split a = a0 ++ [""]).
Proof.
  intros Ha Hb. unfold join, isabs in *. rewrite Hb.
  rewrite (startswith_sep_nonempty _ Ha). simpl.
  destruct (endswith_sep a) eqn:He.
  - destruct (endswith_sep_inv _ He) as [a' ->].
    exists (split a'). rewrite append_assoc_sep. split.
    + apply split_app_sep.
    + right. apply (split_app_sep a' "").
  - exists (split a). split; [apply split_app_sep | now left].
Qed.

Example split_keeps_empty_components :
  split "/a//b/" = [""; "a"; ""; "b"; ""].
Proof. reflexivity. Qed.

Example join_cases :
  join "/srv/app" "plugins/x.py" = "/srv/app/plugins/x.py"
  /\ join "/srv/app/" "x.py" = "/srv/app/x.py"
  /\ join "/srv/app" "/etc/passwd" = "/etc/passwd"
  /\ join "/srv/app" "" = "/srv/app/".
Proof. repeat split. Qed.

Example dirname_cases :
  dirname "/srv/app/plugins/repo_file_plugin.py" = "/srv/app/plugins"
  /\ dirname "repo_file_plugin.py" = ""
  /\ dirname "/x" = "/"
  /\ dirname "a//b" = "a".
Proof. repeat split. Qed.

Example abspath_cases :
  abspath "/home/u" "/srv/app/plugins/.." = "/srv/app"
  /\ abspath "/home/u" "plugins/.." = "/home/u"
  /\ abspath "/home/u" ".." = "/home"
  /\ abspath "/" ".." = "/"
  /\ abspath "//x" "../.." = "//".
Proof. repeat split. Qed.

End PathFacts.

(** ** The file tree *)

Section TreeFacts.
Import Str PosixPath FS.

Lemma node_induction (P : node -> Prop) :
  (forall r data, P (File r data)) ->
  (forall r x es, Forall (fun p => P (snd p)) es -> P (Dir r x es)) ->
  forall n, P n.
Proof.
  intros HF HD. fix IH 1. intros [r data | r x es]; [apply HF|].
  apply HD. induction es as [|[k c] es IHes]; constructor.
  - apply IH.
  - exact IHes.
Qed.

Lemma walk_node_dir (top : string) r x es :
  walk_node top (Dir r x es) =
  if r then
    (top, dir_names es, nondir_names es)
      :: (if x then flat_map (fun p => walk_node (join top (fst p)) (snd p)) es
          else [])
  else [].
Proof.
  simpl. destruct r; [|reflexivity]. destruct x; [|reflexivity]. f_equal.
  induction es as [|[k c] es IH]; simpl; [reflexivity|]. now rewrite IH.
Qed.

Lemma wf_node_dir r x es :
  wf_node (Dir r x es) =
  forallb good_name (map fst es) && distinct (map fst es)
  && forallb (fun p => wf_node (snd p)) es.
Proof.
  simpl. f_equal.
  induction es as [|[k c] es IH]; simpl; [reflexivity|]. now rewrite IH.
Qed.

Lemma lookup_In k es n : lookup k es = Some n -> In (k, n) es.
Proof.
  induction es as [|[k' n'] es IH]; simpl; [discriminate|].
  destruct (String.eqb k' k) eqn:E.
  - apply String.eqb_eq in E. intros [= ->]. left. now subst.
  - intros H. right. auto.
Qed.

Lemma existsb_eqb_In k (l : list string) :
  existsb (String.eqb k) l = true <-> In k l.
Proof.
  rewrite existsb_exists. split.
  - intros [y [Hy E]]. apply String.eqb_eq in E. now subst.
  - intros H. exists k. split; [exact H | apply String.eqb_refl].
Qed.

Lemma In_lookup k n es :
  distinct (map fst es) = true -> In (k, n) es -> lookup k es = Some n.
Proof.
  induction es as [|[k' n'] es IH]; simpl; [tauto|].
  intros Hd [E | Hin].
  - injection E as -> ->. now rewrite String.eqb_refl.
  - apply andb_true_iff in Hd. destruct Hd as [Hn Hd].
    destruct (String.eqb k' k) eqn:E.
    + apply String.eqb_eq in E. subst k'. exfalso.
      apply negb_true_iff in Hn.
      assert (Hk : In k (map fst es)) by (apply (in_map fst _ _ Hin)).
      apply existsb_eqb_In in Hk. congruence.
    + auto.
Qed.

Lemma walk_path_app priv c1 c2 tr n :
  walk_path priv (c1 ++ c2) tr n =
  match walk_path priv c1 tr n with
  | inl err => inl err
  | inr (tr', n') => walk_path priv c2 tr' n'
  end.
Proof.
  revert tr n. induction c1 as [|c c1 IH]; intros tr n; simpl; [reflexivity|].
  destruct n as [r data | r x es]; [reflexivity|].
  destruct (String.eqb c ""); [apply IH|].
  destruct (negb (x || priv)); [reflexivity|].
  destruct (String.eqb c "."); [apply IH|].
  destruct (String.eqb c "..").
  - destruct tr as [|[k parent] tr']; apply IH.
  - destruct (lookup c es); [apply IH | reflexivity].
Qed.

Lemma walk_path_file priv comps tr r data :
  comps <> [] -> walk_path priv comps tr (File r data) = inl ENOTDIR.
Proof. destruct comps; [congruence | reflexivity]. Qed.

Lemma resolve_as_abs priv e a :
  isabs a = true -> resolve_as priv e a = walk_path priv (split a) [] (fs e).
Proof.
  intros Ha. unfold resolve_as. rewrite Ha.
  unfold isabs in Ha. now rewrite (startswith_sep_nonempty _ Ha).
Qed.

(** Resolving [join a b] is resolving [a] and going on through the
    components of [b]. *)
Lemma resolve_as_join priv e a b :
  isabs a = true -> isabs b = false ->
  resolve_as priv e (join a b) =
  match resolve_as priv e a with
  | inl err => inl err
  | inr (tr, n) => walk_path priv (split b) tr n
  end.
Proof.
  intros Ha Hb.
  rewrite (resolve_as_abs priv e _ (join_isabs a b Ha)).
  rewrite (resolve_as_abs priv e _ Ha).
  destruct (split_join_rel a b Ha Hb) as [a0 [-> [-> | ->]]].
  - apply walk_path_app.
  - rewrite !walk_path_app.
    destruct (walk_path priv a0 [] (fs e)) as [err | [tr n]]; [reflexivity|].
    destruct n as [r data | r x es].
    + simpl. apply walk_path_file. apply split_nonempty.
    + reflexivity.
Qed.

Lemma good_name_spec s :
  good_name s = true ->
  String.eqb s "" = false /\ String.eqb s "." = false
  /\ String.eqb s ".." = false /\ has_sep s = false.
Proof.
  unfold good_name. rewrite !andb_true_iff, !negb_true_iff. tauto.
Qed.

Lemma good_name_rel s : good_name s = true -> isabs s = false.
Proof.
  intros H. apply good_name_spec in H. destruct H as (_ & _ & _ & H).
  destruct s; simpl in *; [reflexivity|].
  now apply orb_false_iff in H.
Qed.

(** One proper name, looked up in a directory. *)
Lemma walk_path_name priv s tr r x es :
  good_name s = true ->
  walk_path priv (split s) tr (Dir r x es) =
  if negb (x || priv) then inl EACCES
  else match lookup s es with
       | None => inl ENOENT
       | Some child => inr ((s, Dir r x es) :: tr, child)
       end.
Proof.
  intros H. apply good_name_spec in H. destruct H as (H0 & H1 & H2 & H3).
  rewrite (split_no_sep _ H3). simpl. rewrite H0, H1, H2.
  destruct (negb (x || priv)); [reflexivity|].
  destruct (lookup s es); reflexivity.
Qed.

End TreeFacts.

Section ScopeFacts.
Import Str PosixPath FS.

Lemma under_app (a b : list string) : under a (a ++ b) = true.
Proof.
  induction a as [|x a IH]; simpl; [reflexivity|].
  now rewrite String.eqb_refl.
Qed.

Lemma under_extension (ext tr : trail) :
  under (location tr) (location (ext ++ tr)) = true.
Proof.
  unfold location. rewrite map_app, rev_app_distr. apply under_app.
Qed.

(** Without [..], resolution only goes down. *)
Lemma walk_path_descends priv comps tr n tr' n' :
  forallb (fun c => negb (String.eqb c "..")) comps = true ->
  walk_path priv comps tr n = inr (tr', n') ->
  exists ext, tr' = ext ++ tr.
Proof.
  revert tr n. induction comps as [|c comps IH]; intros tr n Hc; simpl.
  - intros [= <- <-]. now exists [].
  - simpl in Hc. apply andb_true_iff in Hc. destruct Hc as [Hc Hcs].
    apply negb_true_iff in Hc. rewrite Hc.
    destruct n as [r data | r x es]; [discriminate|].
    destruct (String.eqb c ""); [now apply IH|].
    destruct (negb (x || priv)); [discriminate|].
    destruct (String.eqb c "."); [now apply IH|].
    destruct (lookup c es) as [child|]; [|discriminate].
    intros H. destruct (IH _ _ Hcs H) as [ext ->].
    exists (ext ++ [(c, Dir r x es)]). now rewrite <- app_assoc.
Qed.

Lemma wf_child k child r x es :
  wf_node (Dir r x es) = true -> In (k, child) es ->
  good_name k = true /\ wf_node child = true.
Proof.
  rewrite wf_node_dir, !andb_true_iff. intros [[Hg _] Hw] Hin. split.
  - rewrite forallb_forall in Hg. apply Hg. apply (in_map fst _ _ Hin).
  - rewrite forallb_forall in Hw. apply (Hw _ Hin).
Qed.

Lemma walk_path_wf priv comps tr n tr' n' :
  wf_node n = true -> wf_trail tr = true ->
  walk_path priv comps tr n = inr (tr', n') ->
  wf_node n' = true /\ wf_trail tr' = true.
Proof.
  revert tr n. induction comps as [|c comps IH]; intros tr n Hn Ht; simpl.
  - intros [= <- <-]. now split.
  - destruct n as [r data | r x es]; [discriminate|].
    destruct (String.eqb c ""); [now apply IH|].
    destruct (negb (x || priv)); [discriminate|].
    destruct (String.eqb c "."); [now apply IH|].
    destruct (String.eqb c "..").
    + destruct tr as [|[k parent] tr0]; [now apply IH|].
      change (wf_node parent && wf_trail tr0 = true) in Ht.
      apply andb_true_iff in Ht. destruct Ht as [Hp Ht].
      now apply IH.
    + destruct (lookup c es) as [child|] eqn:El; [|discriminate].
      apply IH.
      * apply lookup_In in El. now destruct (wf_child _ _ _ _ _ Hn El).
      * change (wf_node (Dir r x es) && wf_trail tr = true).
        now rewrite Hn, Ht.
Qed.

Lemma resolve_as_wf priv e path tr n :
  wf_env e = true -> resolve_as priv e path = inr (tr, n) ->
  wf_node n = true.
Proof.
  unfold wf_env, resolve_as. rewrite !andb_true_iff. intros [[_ Hw] _].
  destruct (String.eqb path ""); [discriminate|].
  destruct (isabs path); intros H;
    now destruct (walk_path_wf _ _ [] _ _ _ Hw eq_refl H).
Qed.

Lemma in_nondir_names f es :
  In f (nondir_names es) -> exists r data, In (f, File r data) es.
Proof.
  unfold nondir_names. rewrite in_map_iff.
  intros [[k c] [E Hin]]. simpl in E. subst k.
  apply filter_In in Hin. destruct Hin as [Hin Hd].
  destruct c as [r data | r x es']; [|discriminate]. eauto.
Qed.

(** What [os.walk] yields: directories below [top] that resolve, are
    listable, and whose two name lists are their entries. *)
Lemma walk_node_sound e :
  forall n top tr,
    isabs top = true -> resolve e top = inr (tr, n) -> wf_node n = true ->
    forall d dirs files,
      In (d, dirs, files) (walk_node top n) ->
      exists ext x es,
        isabs d = true
        /\ resolve e d = inr (ext ++ tr, Dir true x es)
        /\ dirs = dir_names es /\ files = nondir_names es
        /\ wf_node (Dir true x es) = true.
Proof.
  induction n as [r data | r x es IH] using node_induction;
    intros top tr Ha Hr Hw d dirs files Hin; [destruct Hin|].
  rewrite walk_node_dir in Hin. destruct r; [|destruct Hin].
  destruct Hin as [E | Hin].
  - injection E as <- <- <-. exists [], x, es. auto.
  - destruct x; [|destruct Hin].
    apply in_flat_map in Hin. destruct Hin as [[k c] [Hkc Hin]].
    simpl in Hin. rewrite Forall_forall in IH.
    destruct (wf_child _ _ _ _ _ Hw Hkc) as [Hg Hc].
    assert (Hl : lookup k es = Some c).
    { apply In_lookup; [|exact Hkc].
      rewrite wf_node_dir, !andb_true_iff in Hw. tauto. }
    assert (Hrk : resolve e (join top k) = inr ((k, Dir true true es) :: tr, c)).
    { unfold resolve. rewrite (resolve_as_join false e top k Ha (good_name_rel _ Hg)).
      unfold resolve in Hr. rewrite Hr, (walk_path_name false _ _ _ _ _ Hg).
      simpl. now rewrite Hl. }
    destruct (IH _ Hkc (join top k) _ (join_isabs _ _ Ha) Hrk Hc _ _ _ Hin)
      as (ext & x' & es' & H1 & H2 & H3).
    exists (ext ++ [(k, Dir true true es)]), x', es'.
    rewrite <- app_assoc. auto.
Qed.

(** Opening a name that [os.walk] listed among the files of [d]. *)
Lemma open_listed_file e d tr x es f :
  isabs d = true -> resolve e d = inr (tr, Dir true x es) ->
  wf_node (Dir true x es) = true -> In f (nondir_names es) ->
  exists r data,
    lookup f es = Some (File r data)
    /\ resolve e (join d f) =
       (if x then inr ((f, Dir true x es) :: tr, File r data) else inl EACCES)
    /\ FS.open e (join d f) =
       (if x && r then Ok {| raw := data |}
        else Raise (PermissionError (OsArgs (join d f)))).
Proof.
  intros Ha Hr Hw Hin. destruct (in_nondir_names _ _ Hin) as (r & data & Hf).
  destruct (wf_child _ _ _ _ _ Hw Hf) as [Hg _].
  assert (Hl : lookup f es = Some (File r data)).
  { apply In_lookup; [|exact Hf].
    rewrite wf_node_dir, !andb_true_iff in Hw. tauto. }
  assert (Hj : resolve e (join d f) =
               (if x then inr ((f, Dir true x es) :: tr, File r data)
                else inl EACCES)).
  { unfold resolve. rewrite (resolve_as_join false e d f Ha (good_name_rel _ Hg)).
    unfold resolve in Hr. rewrite Hr, (walk_path_name false _ _ _ _ _ Hg), Hl.
    now destruct x. }
  exists r, data. split; [exact Hl|]. split; [exact Hj|].
  unfold FS.open. rewrite Hj. destruct x; [|reflexivity].
  destruct r; reflexivity.
Qed.

End ScopeFacts.

(** ** The plugin's methods, unfolded *)

Section PluginFacts.
Import Str PosixPath FS Plugin Obs.

Lemma read_file_by_path_eq e path st :
  read_file_by_path e path st =
  let full_path := join (root_dir (self st)) path in
  match read_text e full_path with
  | Ok text => (Ok text, st)
  | Raise err =>
      if is_FileNotFoundError err then (Raise (file_missing full_path), st)
      else (Raise err, st)
  end.
Proof.
  unfold read_file_by_path, read_text, bind, try_except, get_root_dir, lift,
    raise, file_missing. simpl.
  destruct (FS.open e (join (root_dir (self st)) path)) as [f | err]; simpl.
  - destruct (read f) as [text | err]; simpl; [reflexivity|].
    destruct (is_FileNotFoundError err); reflexivity.
  - destruct (is_FileNotFoundError err); reflexivity.
Qed.

Lemma list_directory_eq e path st :
  list_directory e path st =
  let full_path := join (root_dir (self st)) path in
  match listdir e full_path with
  | Ok files => (Ok (join_with nl files), st)
  | Raise err =>
      if is_FileNotFoundError err then (Raise (directory_missing full_path), st)
      else (Raise err, st)
  end.
Proof.
  unfold list_directory, bind, try_except, get_root_dir, lift, raise, ret,
    directory_missing. simpl.
  destruct (listdir e (join (root_dir (self st)) path)) as [files | err]; simpl.
  - reflexivity.
  - destruct (is_FileNotFoundError err); reflexivity.
Qed.

Lemma read_file_by_name_eq e file_name st :
  read_file_by_name e file_name st =
  search e file_name (walk e (root_dir (self st))) st.
Proof. reflexivity. Qed.

Lemma search_hit e file_name d dirs files rest st :
  contains file_name files = true ->
  search e file_name ((d, dirs, files) :: rest) st =
  (read_text e (join d file_name), printed st (found_line file_name d)).
Proof.
  intros H. simpl. rewrite H.
  unfold bind, print, lift, read_text, printed, found_line. simpl.
  destruct (FS.open e (join d file_name)) as [f | err]; simpl; [|reflexivity].
  destruct (read f); reflexivity.
Qed.

Lemma search_skip e file_name before rest st :
  (forall t, In t before -> contains file_name (snd t) = false) ->
  search e file_name (before ++ rest) st = search e file_name rest st.
Proof.
  induction before as [|[[d dirs] files] before IH]; intros H; [reflexivity|].
  pose proof (H (d, dirs, files) (or_introl eq_refl)) as H0.
  simpl in H0 |- *. rewrite H0.
  apply IH. intros t Ht. apply H. now right.
Qed.

Lemma search_miss e file_name l st :
  (forall t, In t l -> contains file_name (snd t) = false) ->
  search e file_name l st = (Raise (file_missing file_name), st).
Proof.
  intros H. rewrite <- (app_nil_r l). rewrite (search_skip e file_name l [] st H).
  reflexivity.
Qed.

(** A list with a match splits at its first match. *)
Lemma first_match file_name (l : list (string * list string * list string)) :
  (exists t, In t l /\ contains file_name (snd t) = true) ->
  exists before d dirs files after,
    l = before ++ (d, dirs, files) :: after
    /\ (forall t, In t before -> contains file_name (snd t) = false)
    /\ contains file_name files = true.
Proof.
  induction l as [|[[d dirs] files] l IH]; intros [t [Hin Ht]]; [destruct Hin|].
  destruct (contains file_name files) eqn:E.
  - exists [], d, dirs, files, l. repeat split; [|exact E]. intros ? [].
  - destruct IH as (before & d' & dirs' & files' & after & -> & Hb & Hf).
    + destruct Hin as [<- | Hin]; [simpl in Ht; congruence|]. eauto.
    + exists ((d, dirs, files) :: before), d', dirs', files', after.
      repeat split; [|exact Hf]. intros t' [<- | Ht']; [exact E | auto].
Qed.

Lemma walk_sound e root d dirs files :
  wf_env e = true -> isabs root = true ->
  In (d, dirs, files) (walk e root) ->
  exists rtr rn ext x es,
    resolve e root = inr (rtr, rn)
    /\ isabs d = true
    /\ resolve e d = inr (ext ++ rtr, Dir true x es)
    /\ dirs = dir_names es /\ files = nondir_names es
    /\ wf_node (Dir true x es) = true.
Proof.
  intros Hw Ha Hin. unfold walk in Hin.
  destruct (resolve e root) as [err | [rtr rn]] eqn:Hr; [destruct Hin|].
  assert (Hn : wf_node rn = true) by (exact (resolve_as_wf _ _ _ _ _ Hw Hr)).
  destruct (walk_node_sound e rn root rtr Ha Hr Hn _ _ _ Hin)
    as (ext & x & es & H).
  exists rtr, rn, ext, x, es. tauto.
Qed.

(** The outcome of [read_file_by_name] when the walk has a match: the
    first directory listing the name decides it. *)
Lemma read_file_by_name_first e file_name st before d dirs files after :
  wf_env e = true -> isabs (root_dir (self st)) = true ->
  walk e (root_dir (self st)) = before ++ (d, dirs, files) :: after ->
  (forall t, In t before -> contains file_name (snd t) = false) ->
  contains file_name files = true ->
  exists rtr rn ext x es r data,
    resolve e (root_dir (self st)) = inr (rtr, rn)
    /\ resolve e d = inr (ext ++ rtr, Dir true x es)
    /\ files = nondir_names es
    /\ lookup file_name es = Some (File r data)
    /\ read_text e (join d file_name) =
       (if x && r then Text.decode data
        else Raise (PermissionError (OsArgs (join d file_name))))
    /\ read_file_by_name e file_name st =
       (read_text e (join d file_name), printed st (found_line file_name d)).
Proof.
  intros Hw Ha Hwalk Hb Hf.
  assert (Hin : In (d, dirs, files) (walk e (root_dir (self st)))).
  { rewrite Hwalk. apply in_or_app. right. now left. }
  destruct (walk_sound e _ d dirs files Hw Ha Hin)
    as (rtr & rn & ext & x & es & Hr & Hd & Hrd & _ & Hfs & Hwd).
  assert (Hl : In file_name (nondir_names es)).
  { rewrite <- Hfs. now apply existsb_eqb_In. }
  destruct (open_listed_file e d _ x es file_name Hd Hrd Hwd Hl)
    as (r & data & Hlk & _ & Hop).
  exists rtr, rn, ext, x, es, r, data.
  repeat split; try assumption.
  - unfold read_text. rewrite Hop. destruct (x && r); reflexivity.
  - rewrite read_file_by_name_eq, Hwalk, (search_skip e file_name before _ st Hb).
    now apply search_hit.
Qed.

End PluginFacts.

(** ** Text *)

Section TextFacts.
Import Text.

Lemma translate_newlines_no_CR (s : string) :
  has_char CR s = false -> translate_newlines s = s.
Proof.
  induction s as [|c s IH]; simpl; [reflexivity|].
  intros H. apply orb_false_iff in H. destruct H as [Hc Hs].
  rewrite Hc, (IH Hs). reflexivity.
Qed.

Example utf8_valid_cases :
  utf8_valid "plain" = true
  /\ utf8_valid (String "195" (String "169" "")) = true
  /\ utf8_valid (String "192" (String "128" "")) = false
  /\ utf8_valid (String "237" (String "160" (String "128" ""))) = false
  /\ utf8_valid (String "244" (String "144" (String "128" (String "128" ""))))
     = false
  /\ utf8_valid (String "226" (String "130" "")) = false.
Proof. repeat split. Qed.

Example translate_newlines_cases :
  translate_newlines (String "a" (String CR (String LF "b")))
  = String "a" (String LF "b")
  /\ translate_newlines (String CR (String CR (String LF "")))
     = String LF (String LF "")
  /\ translate_newlines (String "a" (String LF "b")) = String "a" (String LF "b").
Proof. repeat split. Qed.

End TextFacts.

(** ** Reading a file by path *)

Section ReadByPath.
Import Str PosixPath FS Plugin Obs.

(** C1, as stated, fails: [/srv/app/notes.txt] holds the four bytes
    [a CR LF b]; [read_file_by_path "notes.txt"] returns the three
    characters [a LF b]. *)
Lemma crlf_file_not_returned_verbatim :
  content_at Sample.machine (join (root_dir (self Sample.st0)) "notes.txt")
  = Some (String "a" (String Text.CR (String Text.LF "b")))
  /\ read_file_by_path Sample.machine "notes.txt" Sample.st0
     = (Ok (String "a" (String Text.LF "b")), Sample.st0)
  /\ String "a" (String Text.LF "b")
     <> String "a" (String Text.CR (String Text.LF "b")).
Proof. repeat split. discriminate. Qed.

(** C1, amended: when the joined path leads to a regular file the process
    may read and its bytes are valid UTF-8, [read_file_by_path] returns
    the text with universal newlines applied, and leaves the state as it
    was; a content without carriage return comes back byte for byte. *)
Theorem read_file_by_path_returns_text e path st tr data :
  resolve e (join (root_dir (self st)) path) = inr (tr, File true data) ->
  Text.utf8_valid data = true ->
  read_file_by_path e path st = (Ok (Text.translate_newlines data), st)
  /\ (Text.has_char Text.CR data = false ->
      read_file_by_path e path st = (Ok data, st)).
Proof.
  intros Hr Hv.
  assert (H : read_file_by_path e path st
              = (Ok (Text.translate_newlines data), st)).
  { rewrite read_file_by_path_eq. unfold read_text, FS.open. simpl.
    rewrite Hr. simpl. unfold read, Text.decode. simpl. now rewrite Hv. }
  split; [exact H|].
  intros Hc. now rewrite H, (translate_newlines_no_CR _ Hc).
Qed.

Lemma read_file_by_path_returns_text_witness :
  exists tr,
    resolve Sample.machine (join (root_dir (self Sample.st0)) "main.py")
    = inr (tr, File true "print(1)")
    /\ Text.utf8_valid "print(1)" = true
    /\ read_file_by_path Sample.machine "main.py" Sample.st0
       = (Ok "print(1)", Sample.st0).
Proof.
  eexists. split; [reflexivity|]. split; [reflexivity|].
  refine (proj2 (read_file_by_path_returns_text
                   Sample.machine "main.py" Sample.st0 _ "print(1)" _ _) _);
    reflexivity.
Defined.

End ReadByPath.

(** ** The object's state and the standard output *)

Section Frame.
Import Str PosixPath FS Plugin Obs.

Lemma read_file_by_path_frame e path st :
  snd (read_file_by_path e path st) = st.
Proof.
  rewrite read_file_by_path_eq. simpl.
  destruct (read_text e (join (root_dir (self st)) path)) as [text | err];
    [reflexivity|].
  destruct (is_FileNotFoundError err); reflexivity.
Qed.

Lemma list_directory_frame e path st :
  snd (list_directory e path st) = st.
Proof.
  rewrite list_directory_eq. simpl.
  destruct (listdir e (join (root_dir (self st)) path)) as [files | err];
    [reflexivity|].
  destruct (is_FileNotFoundError err); reflexivity.
Qed.

(** The loop of [read_file_by_name] either finds no match and leaves the
    state alone, or prints one line for the first directory with a match. *)
Lemma search_cases e file_name l st :
  ((forall t, In t l -> contains file_name (snd t) = false)
   /\ search e file_name l st = (Raise (file_missing file_name), st))
  \/ (exists before d dirs files after,
        l = before ++ (d, dirs, files) :: after
        /\ (forall t, In t before -> contains file_name (snd t) = false)
        /\ contains file_name files = true
        /\ search e file_name l st =
           (read_text e (join d file_name), printed st (found_line file_name d))).
Proof.
  destruct (existsb (fun t => contains file_name (snd t)) l) eqn:E.
  - right. apply existsb_exists in E.
    destruct (first_match file_name l E)
      as (before & d & dirs & files & after & -> & Hb & Hf).
    exists before, d, dirs, files, after. repeat split; try assumption.
    rewrite (search_skip e file_name before _ st Hb). now apply search_hit.
  - left.
    assert (H : forall t, In t l -> contains file_name (snd t) = false).
    { intros t Ht. destruct (contains file_name (snd t)) eqn:C; [|reflexivity].
      assert (X : existsb (fun t => contains file_name (snd t)) l = true)
        by (apply existsb_exists; eauto).
      congruence. }
    split; [exact H | now apply search_miss].
Qed.

Lemma read_file_by_name_self e file_name st :
  self (snd (read_file_by_name e file_name st)) = self st.
Proof.
  rewrite read_file_by_name_eq.
  destruct (search_cases e file_name (walk e (root_dir (self st))) st)
    as [[_ ->] | (before & d & dirs & files & after & _ & _ & _ & ->)];
    reflexivity.
Qed.

(** C6: [__init__] stores an absolute path in [root_dir] (the current
    directory being absolute, as [os.getcwd()] gives it), and none of the
    three methods changes the object. *)
Theorem root_dir_absolute_and_fixed e __file__ st0 :
  isabs (cwd e) = true ->
  isabs (root_dir (self (snd (__init__ e __file__ st0)))) = true
  /\ (forall path st, self (snd (read_file_by_path e path st)) = self st)
  /\ (forall file_name st, self (snd (read_file_by_name e file_name st)) = self st)
  /\ (forall path st, self (snd (list_directory e path st)) = self st).
Proof.
  intros Hc. split; [|split; [|split]].
  - simpl. now apply abspath_isabs.
  - intros path st. now rewrite read_file_by_path_frame.
  - intros file_name st. apply read_file_by_name_self.
  - intros path st. now rewrite list_directory_frame.
Qed.

Lemma root_dir_absolute_and_fixed_witness :
  isabs (cwd Sample.machine) = true
  /\ root_dir (self Sample.st0) = "/srv/app"
  /\ isabs (root_dir (self Sample.st0)) = true
  /\ self (snd (read_file_by_name Sample.machine "main.py" Sample.st0))
     = self Sample.st0.
Proof.
  split; [reflexivity|]. split; [reflexivity|].
  pose proof (root_dir_absolute_and_fixed
                Sample.machine Sample.plugin_file Sample.fresh eq_refl)
    as (H1 & _ & H3 & _).
  split; [exact H1 | exact (H3 "main.py" Sample.st0)].
Defined.



End Frame.

(** ** Where the methods reach *)

Section Scope.
Import Str PosixPath FS Plugin Obs.

(** C2, as stated, fails: with the root at [/srv/app], the path
    [../secret.txt] leads to [/srv/secret.txt], which is not under the root,
    and [read_file_by_path] returns its content; an absolute path replaces
    the root altogether, so [list_directory "/srv"] lists [/srv]. *)
Lemma parent_path_leaves_root :
  location_of Sample.machine (root_dir (self Sample.st0)) = Some ["srv"; "app"]
  /\ location_of Sample.machine (join (root_dir (self Sample.st0)) "../secret.txt")
     = Some ["srv"; "secret.txt"]
  /\ under ["srv"; "app"] ["srv"; "secret.txt"] = false
  /\ read_file_by_path Sample.machine "../secret.txt" Sample.st0
     = (Ok "top secret", Sample.st0)
  /\ list_directory Sample.machine "/srv" Sample.st0
     = (Ok ("app" ++ nl ++ "secret.txt")%string, Sample.st0).
Proof. repeat split. Qed.

Lemma location_of_inv e p loc :
  location_of e p = Some loc ->
  exists tr n, resolve e p = inr (tr, n) /\ loc = location tr.
Proof.
  unfold location_of. destruct (resolve e p) as [err | [tr n]]; [discriminate|].
  intros [= <-]. eauto.
Qed.

Lemma read_text_ok e p text :
  read_text e p = Ok text ->
  exists tr data,
    resolve e p = inr (tr, File true data) /\ Text.decode data = Ok text.
Proof.
  unfold read_text, FS.open.
  destruct (resolve e p) as [err | [tr [r data | r x es]]]; simpl;
    [discriminate| |destruct r; discriminate].
  destruct r; simpl; [|discriminate]. unfold read. simpl. eauto.
Qed.

Lemma listdir_ok e p files :
  listdir e p = Ok files ->
  exists tr x es, resolve e p = inr (tr, Dir true x es) /\ files = map fst es.
Proof.
  unfold listdir.
  destruct (resolve e p) as [err | [tr [r data | r x es]]];
    [discriminate|discriminate|].
  destruct r; [|discriminate]. intros [= <-]. eauto.
Qed.

(** Below an absolute root, a relative path without [..] stays below. *)
Lemma join_stays_under e root path tr n :
  isabs root = true -> isabs path = false -> no_dotdot path = true ->
  resolve e (join root path) = inr (tr, n) ->
  exists rtr rn ext, resolve e root = inr (rtr, rn) /\ tr = ext ++ rtr.
Proof.
  intros Ha Hrel Hdd Hr.
  unfold resolve in *. rewrite (resolve_as_join false e _ _ Ha Hrel) in Hr.
  destruct (resolve_as false e root) as [err | [rtr rn]]; [discriminate|].
  destruct (walk_path_descends _ _ _ _ _ _ Hdd Hr) as [ext ->].
  eauto.
Qed.

(** C2, amended, for a well-formed tree of directories and regular files
    (one without symbolic links, which the system would follow wherever
    they point) and an absolute root. [read_file_by_path] and
    [list_directory] hand [join root path] to the system, and that path
    leads below the root whenever [path] is relative and has no [..]
    component: what they return then is the text of a file, or the listing
    of a directory, below the root. [read_file_by_name] walks directories
    below the root only, and what it returns is the text of a file below
    the root. *)
Theorem access_stays_under_root e st :
  wf_env e = true ->
  isabs (root_dir (self st)) = true ->
  (forall path loc,
      isabs path = false -> no_dotdot path = true ->
      location_of e (join (root_dir (self st)) path) = Some loc ->
      exists rloc,
        location_of e (root_dir (self st)) = Some rloc /\ under rloc loc = true)
  /\ (forall path text st',
         isabs path = false -> no_dotdot path = true ->
         read_file_by_path e path st = (Ok text, st') ->
         exists rloc tr data,
           location_of e (root_dir (self st)) = Some rloc
           /\ resolve e (join (root_dir (self st)) path) = inr (tr, File true data)
           /\ under rloc (location tr) = true
           /\ Text.decode data = Ok text)
  /\ (forall path text st',
         isabs path = false -> no_dotdot path = true ->
         list_directory e path st = (Ok text, st') ->
         exists rloc tr x es,
           location_of e (root_dir (self st)) = Some rloc
           /\ resolve e (join (root_dir (self st)) path) = inr (tr, Dir true x es)
           /\ under rloc (location tr) = true
           /\ text = join_with nl (map fst es))
  /\ (forall d dirs files,
         In (d, dirs, files) (walk e (root_dir (self st))) ->
         exists rloc dloc,
           location_of e (root_dir (self st)) = Some rloc
           /\ location_of e d = Some dloc
           /\ under rloc dloc = true
           /\ (forall f loc,
                  In f files -> location_of e (join d f) = Some loc ->
                  under rloc loc = true))
  /\ (forall file_name text st',
         read_file_by_name e file_name st = (Ok text, st') ->
         exists rloc d tr data,
           location_of e (root_dir (self st)) = Some rloc
           /\ resolve e (join d file_name) = inr (tr, File true data)
           /\ under rloc (location tr) = true
           /\ Text.decode data = Ok text).
Proof.
  intros Hw Ha.
  assert (P4 : forall d dirs files,
             In (d, dirs, files) (walk e (root_dir (self st))) ->
             exists rloc dloc,
               location_of e (root_dir (self st)) = Some rloc
               /\ location_of e d = Some dloc
               /\ under rloc dloc = true
               /\ (forall f loc,
                      In f files -> location_of e (join d f) = Some loc ->
                      under rloc loc = true)).
  { intros d dirs files Hin.
    destruct (walk_sound e _ d dirs files Hw Ha Hin)
      as (rtr & rn & ext & x & es & Hr & Hd & Hrd & _ & Hfs & Hwd).
    exists (location rtr), (location (ext ++ rtr)).
    unfold location_of. rewrite Hr, Hrd.
    split; [reflexivity|]. split; [reflexivity|].
    split; [apply under_extension|].
    intros f loc Hf. rewrite Hfs in Hf.
    destruct (open_listed_file e d _ x es f Hd Hrd Hwd Hf)
      as (r & data & _ & -> & _).
    destruct x; [|discriminate]. intros [= <-].
    apply (under_extension ((f, Dir true true es) :: ext) rtr). }
  split; [|split; [|split; [|split; [exact P4|]]]].
  - intros path loc Hrel Hdd Hloc.
    destruct (location_of_inv _ _ _ Hloc) as (tr & n & Hr & ->).
    destruct (join_stays_under e _ path tr n Ha Hrel Hdd Hr)
      as (rtr & rn & ext & Hroot & ->).
    exists (location rtr). unfold location_of. rewrite Hroot.
    split; [reflexivity | apply under_extension].
  - intros path text st' Hrel Hdd H. rewrite read_file_by_path_eq in H.
    simpl in H.
    destruct (read_text e (join (root_dir (self st)) path)) as [t | err] eqn:E.
    + injection H as <- _.
      destruct (read_text_ok _ _ _ E) as (tr & data & Hr & Hdec).
      destruct (join_stays_under e _ path tr _ Ha Hrel Hdd Hr)
        as (rtr & rn & ext & Hroot & ->).
      exists (location rtr), (ext ++ rtr), data.
      unfold location_of. rewrite Hroot.
      repeat split; try assumption. apply under_extension.
    + destruct (is_FileNotFoundError err); discriminate.
  - intros path text st' Hrel Hdd H. rewrite list_directory_eq in H.
    simpl in H.
    destruct (listdir e (join (root_dir (self st)) path)) as [fs | err] eqn:E.
    + injection H as <- _.
      destruct (listdir_ok _ _ _ E) as (tr & x & es & Hr & ->).
      destruct (join_stays_under e _ path tr _ Ha Hrel Hdd Hr)
        as (rtr & rn & ext & Hroot & ->).
      exists (location rtr), (ext ++ rtr), x, es.
      unfold location_of. rewrite Hroot.
      repeat split; try assumption. apply under_extension.
    + destruct (is_FileNotFoundError err); discriminate.
  - intros file_name text st' H. rewrite read_file_by_name_eq in H.
    destruct (search_cases e file_name (walk e (root_dir (self st))) st)
      as [[_ E] | (before & d & dirs & files & after & Hl & _ & Hf & E)];
      rewrite E in H; [discriminate|].
    injection H as Ht _.
    destruct (read_text_ok _ _ _ Ht) as (tr & data & Hr & Hdec).
    assert (Hin : In (d, dirs, files) (walk e (root_dir (self st)))).
    { rewrite Hl. apply in_or_app. right. now left. }
    destruct (P4 d dirs files Hin) as (rloc & dloc & Hroot & _ & _ & Hfiles).
    exists rloc, d, tr, data. repeat split; try assumption.
    apply (Hfiles file_name).
    + now apply existsb_eqb_In.
    + unfold location_of. now rewrite Hr.
Qed.

Lemma access_stays_under_root_witness :
  wf_env Sample.machine = true
  /\ isabs (root_dir (self Sample.st0)) = true
  /\ (exists rloc,
         location_of Sample.machine (root_dir (self Sample.st0)) = Some rloc
         /\ under rloc ["srv"; "app"; "plugins"; "main.py"] = true).
Proof.
  split; [reflexivity|]. split; [reflexivity|].
  exact (proj1 (access_stays_under_root Sample.machine Sample.st0 eq_refl eq_refl)
               "plugins/main.py" ["srv"; "app"; "plugins"; "main.py"]
               eq_refl eq_refl eq_refl).
Defined.

End Scope.

(** ** Errors *)

Section Errors.
Import Str PosixPath FS Plugin Obs.

(** What the caller finds missing is missing for everyone. *)
Lemma walk_path_ENOENT comps tr n :
  walk_path false comps tr n = inl ENOENT ->
  walk_path true comps tr n = inl ENOENT.
Proof.
  revert tr n. induction comps as [|c comps IH]; intros tr n; simpl;
    [discriminate|].
  destruct n as [r data | r x es]; [discriminate|].
  destruct (String.eqb c ""); [apply IH|].
  destruct x; simpl; [|discriminate].
  destruct (String.eqb c "."); [apply IH|].
  destruct (String.eqb c "..").
  - destruct tr as [|[k parent] tr0]; apply IH.
  - destruct (lookup c es); [apply IH | reflexivity].
Qed.

Lemma resolve_ENOENT e p :
  resolve e p = inl ENOENT -> stat_any e p = inl ENOENT.
Proof.
  unfold resolve, stat_any, resolve_as.
  destruct (String.eqb p ""); [reflexivity|].
  destruct (isabs p); apply walk_path_ENOENT.
Qed.

(** [open] then [read] raises the system's not-found error exactly when a
    component of the path is missing. *)
Lemma read_text_not_found e p a :
  read_text e p = Raise (FileNotFoundError a) <->
  resolve e p = inl ENOENT /\ a = OsArgs p.
Proof.
  unfold read_text, FS.open.
  destruct (resolve e p) as [err | [tr [r data | r x es]]]; simpl.
  - destruct err; simpl; (split; [intros H | intros [H1 H2]]);
      try discriminate.
    + injection H as <-. now split.
    + now subst a.
  - destruct r; simpl.
    + unfold read, Text.decode. simpl.
      destruct (Text.utf8_valid data);
        (split; [intros H | intros [H1 H2]]); discriminate.
    + split; [intros H | intros [H1 H2]]; discriminate.
  - destruct r; simpl; (split; [intros H | intros [H1 H2]]); discriminate.
Qed.

(** C3, as stated, fails in both directions. No file is at
    [/srv/app/main.py/x], yet [read_file_by_path] raises
    [NotADirectoryError], since [main.py] is a regular file. A file named
    [hidden.txt] exists under the root, in a directory the walk cannot list,
    yet [read_file_by_name] raises the not-found error. *)
Lemma not_found_is_not_absence :
  file_at Sample.machine (join (root_dir (self Sample.st0)) "main.py/x") = false
  /\ read_file_by_path Sample.machine "main.py/x" Sample.st0
     = (Raise (NotADirectoryError (OsArgs "/srv/app/main.py/x")), Sample.st0)
  /\ file_at Sample.machine "/srv/app/locked/hidden.txt" = true
  /\ read_file_by_name Sample.machine "hidden.txt" Sample.st0
     = (Raise (file_missing "hidden.txt"), Sample.st0).
Proof. repeat split. Qed.

Lemma read_text_never_plugin_message e p m :
  read_text e p <> Raise (FileNotFoundError (Msg m)).
Proof.
  intros H. apply read_text_not_found in H. destruct H as [_ H]. discriminate.
Qed.

(** C3, amended, for a tree of directories and regular files. Every
    not-found error [read_file_by_path] raises is the one with the
    plugin's message, and it is raised only when resolving the joined path
    meets a missing component. For a plain joined path the converse holds:
    a missing component gives that error, and a path that runs through a
    regular file gives [NotADirectoryError] instead. When anything exists
    at the joined path no not-found error is raised. With a plain root,
    [read_file_by_name] raises the not-found error with the plugin's
    message exactly when no directory the walk yields lists the name among
    its files. *)
Theorem not_found_exactly_when e st :
  (forall path a,
      fst (read_file_by_path e path st) = Raise (FileNotFoundError a) ->
      resolve e (join (root_dir (self st)) path) = inl ENOENT
      /\ a = Msg ("File " ++ join (root_dir (self st)) path
                          ++ " not found in repository.")%string)
  /\ (forall path,
         Limits.plain_path (join (root_dir (self st)) path) = true ->
         resolve e (join (root_dir (self st)) path) = inl ENOENT ->
         fst (read_file_by_path e path st)
         = Raise (FileNotFoundError
                    (Msg ("File " ++ join (root_dir (self st)) path
                                  ++ " not found in repository.")%string)))
  /\ (forall path tr n a,
         stat_any e (join (root_dir (self st)) path) = inr (tr, n) ->
         fst (read_file_by_path e path st) <> Raise (FileNotFoundError a))
  /\ (forall path,
         Limits.plain_path (join (root_dir (self st)) path) = true ->
         resolve e (join (root_dir (self st)) path) = inl ENOTDIR ->
         fst (read_file_by_path e path st)
         = Raise (NotADirectoryError (OsArgs (join (root_dir (self st)) path))))
  /\ (forall file_name,
         Limits.plain_path (root_dir (self st)) = true ->
         fst (read_file_by_name e file_name st)
         = Raise (FileNotFoundError
                    (Msg ("File " ++ file_name ++ " not found in repository.")%string))
         <-> (forall t, In t (walk e (root_dir (self st))) ->
                        contains file_name (snd t) = false)).
Proof.
  assert (P1 : forall path a,
             fst (read_file_by_path e path st) = Raise (FileNotFoundError a) ->
             resolve e (join (root_dir (self st)) path) = inl ENOENT
             /\ a = Msg ("File " ++ join (root_dir (self st)) path
                                 ++ " not found in repository.")%string).
  { intros path a. rewrite read_file_by_path_eq. simpl.
    pose proof (read_text_not_found e (join (root_dir (self st)) path)) as Hnf.
    destruct (read_text e (join (root_dir (self st)) path)) as [text | err].
    - simpl. discriminate.
    - destruct err as [a0 | a0 | a0 | a0 | | m]; simpl; try discriminate.
      destruct (proj1 (Hnf a0) eq_refl) as [Hr _].
      unfold file_missing. intros [= <-]. now split. }
  split; [exact P1|]. split; [|split; [|split]].
  - intros path _ Hr. rewrite read_file_by_path_eq. simpl.
    unfold read_text, FS.open. now rewrite Hr.
  - intros path tr n a Hs Hf. apply P1 in Hf. destruct Hf as [Hr _].
    apply resolve_ENOENT in Hr. congruence.
  - intros path _ Hr. rewrite read_file_by_path_eq. simpl.
    unfold read_text, FS.open. now rewrite Hr.
  - intros file_name _. rewrite read_file_by_name_eq.
    destruct (search_cases e file_name (walk e (root_dir (self st))) st)
      as [[Hno E] | (before & d & dirs & files & after & Hl & Hb & Hf & E)].
    + rewrite E. simpl. split; [intros _; exact Hno | reflexivity].
    + rewrite E. simpl. split.
      * intros H. now apply read_text_never_plugin_message in H.
      * intros Hno. exfalso.
        assert (Hin : In (d, dirs, files) (walk e (root_dir (self st)))).
        { rewrite Hl. apply in_or_app. right. now left. }
        specialize (Hno _ Hin). simpl in Hno. congruence.
Qed.

Lemma not_found_exactly_when_witness :
  Limits.plain_path (join (root_dir (self Sample.st0)) "nope") = true
  /\ resolve Sample.machine (join (root_dir (self Sample.st0)) "nope")
     = inl ENOENT
  /\ fst (read_file_by_path Sample.machine "nope" Sample.st0)
     = Raise (FileNotFoundError
                (Msg "File /srv/app/nope not found in repository."))
  /\ Limits.plain_path (root_dir (self Sample.st0)) = true
  /\ fst (read_file_by_name Sample.machine "nope" Sample.st0)
     = Raise (FileNotFoundError (Msg "File nope not found in repository.")).
Proof.
  split; [reflexivity|]. split; [reflexivity|].
  pose proof (not_found_exactly_when Sample.machine Sample.st0)
    as (_ & H2 & _ & _ & H5).
  split; [exact (H2 "nope" eq_refl eq_refl)|].
  split; [reflexivity|].
  apply (H5 "nope" eq_refl).
  intros t [<- | [<- | [<- | []]]]; reflexivity.
Defined.

End Errors.

(** ** Listing a directory *)

Section Listing.
Import Str PosixPath FS Plugin Obs.





End Listing.

(** ** Reading a file by name *)

Section ReadByName.
Import Str PosixPath FS Plugin Obs.

(** C5, as stated, fails: the content of the first file of the name is
    not always what comes back. [notes.txt] holds [a CR LF b] and is
    returned as [a LF b]; [private.txt] may not be read and gives
    [PermissionError]; [blob.bin] is not valid UTF-8 and gives
    [UnicodeDecodeError]. On the second machine the first [a.txt] may not
    be read, and the readable one deeper down is not tried. *)
Lemma first_match_not_returned_as_stored :
  content_at Sample.machine "/srv/app/notes.txt"
  = Some (String "a" (String Text.CR (String Text.LF "b")))
  /\ read_file_by_name Sample.machine "notes.txt" Sample.st0
     = (Ok (String "a" (String Text.LF "b")),
        {| self := {| root_dir := "/srv/app" |};
           stdout := ["Found file notes.txt in /srv/app."] |})
  /\ String "a" (String Text.LF "b")
     <> String "a" (String Text.CR (String Text.LF "b"))
  /\ content_at Sample.machine "/srv/app/plugins/private.txt" = Some "p"
  /\ read_file_by_name Sample.machine "private.txt" Sample.st0
     = (Raise (PermissionError (OsArgs "/srv/app/plugins/private.txt")),
        {| self := {| root_dir := "/srv/app" |};
           stdout := ["Found file private.txt in /srv/app/plugins."] |})
  /\ content_at Sample.machine "/srv/app/plugins/blob.bin"
     = Some (String "255" "")
  /\ read_file_by_name Sample.machine "blob.bin" Sample.st0
     = (Raise UnicodeDecodeError,
        {| self := {| root_dir := "/srv/app" |};
           stdout := ["Found file blob.bin in /srv/app/plugins."] |})
  /\ content_at Sample2.machine "/repo/sub/a.txt" = Some "second"
  /\ read_file_by_name Sample2.machine "a.txt" Sample2.st0
     = (Raise (PermissionError (OsArgs "/repo/a.txt")),
        {| self := {| root_dir := "/repo" |};
           stdout := ["Found file a.txt in /repo."] |}).
Proof. repeat split. discriminate. Qed.

(** C5, amended, for a tree of directories and regular files.
    [read_file_by_name] goes through what [os.walk] yields from the root,
    top-down, in order, and stops at the first directory [d] that lists the
    name among its files: it prints the line for [d] and opens that file,
    and no later file of the name is tried. When the process may search
    [d] and read the file and the bytes are valid UTF-8, the file's text
    comes back with universal newlines applied, byte for byte when it holds
    no carriage return. Bytes that are not valid UTF-8 give
    [UnicodeDecodeError]; a file that may not be read, or a directory that
    may not be searched, gives [PermissionError]. *)
Theorem read_file_by_name_reads_first_match
        e file_name st before d dirs files after :
  wf_env e = true ->
  isabs (root_dir (self st)) = true ->
  Limits.plain_path (join d file_name) = true ->
  walk e (root_dir (self st)) = before ++ (d, dirs, files) :: after ->
  (forall t, In t before -> contains file_name (snd t) = false) ->
  contains file_name files = true ->
  exists tr x es r data,
    resolve e d = inr (tr, Dir true x es)
    /\ lookup file_name es = Some (File r data)
    /\ snd (read_file_by_name e file_name st)
       = {| self := self st;
            stdout := stdout st
                      ++ [("Found file " ++ file_name ++ " in " ++ d ++ ".")%string] |}
    /\ (x && r = true -> Text.utf8_valid data = true ->
        fst (read_file_by_name e file_name st)
        = Ok (Text.translate_newlines data))
    /\ (x && r = true -> Text.utf8_valid data = true ->
        Text.has_char Text.CR data = false ->
        fst (read_file_by_name e file_name st) = Ok data)
    /\ (x && r = true -> Text.utf8_valid data = false ->
        fst (read_file_by_name e file_name st) = Raise UnicodeDecodeError)
    /\ (x && r = false ->
        fst (read_file_by_name e file_name st)
        = Raise (PermissionError (OsArgs (join d file_name)))).
Proof.
  intros Hw Ha _ Hl Hb Hf.
  destruct (read_file_by_name_first e file_name st before d dirs files after
              Hw Ha Hl Hb Hf)
    as (rtr & rn & ext & x & es & r & data & _ & Hd & _ & Hlk & Hrt & E).
  exists (ext ++ rtr), x, es, r, data.
  split; [exact Hd|]. split; [exact Hlk|].
  rewrite E, Hrt. simpl. split; [reflexivity|].
  unfold Text.decode. repeat split.
  - intros -> ->. reflexivity.
  - intros -> -> Hc. now rewrite (translate_newlines_no_CR _ Hc).
  - intros -> ->. reflexivity.
  - intros ->. reflexivity.
Qed.

Lemma read_file_by_name_reads_first_match_witness :
  Limits.plain_path (join "/srv/app" "notes.txt") = true
  /\ walk Sample.machine (root_dir (self Sample.st0))
     = [] ++ ("/srv/app", ["locked"; "plugins"; "docs"], ["main.py"; "notes.txt"])
          :: [("/srv/app/plugins", [],
               ["repo_file_plugin.py"; "main.py"; "blob.bin"; "private.txt"]);
              ("/srv/app/docs", [], [])]
  /\ read_file_by_name Sample.machine "notes.txt" Sample.st0
     = (Ok (String "a" (String Text.LF "b")),
        {| self := {| root_dir := "/srv/app" |};
           stdout := ["Found file notes.txt in /srv/app."] |})
  /\ exists tr x es r data,
       resolve Sample.machine "/srv/app" = inr (tr, Dir true x es)
       /\ lookup "notes.txt" es = Some (File r data)
       /\ snd (read_file_by_name Sample.machine "notes.txt" Sample.st0)
          = {| self := self Sample.st0;
               stdout := stdout Sample.st0
                         ++ ["Found file notes.txt in /srv/app."] |}
       /\ (x && r = true -> Text.utf8_valid data = true ->
           fst (read_file_by_name Sample.machine "notes.txt" Sample.st0)
           = Ok (Text.translate_newlines data))
       /\ (x && r = true -> Text.utf8_valid data = true ->
           Text.has_char Text.CR data = false ->
           fst (read_file_by_name Sample.machine "notes.txt" Sample.st0)
           = Ok data)
       /\ (x && r = true -> Text.utf8_valid data = false ->
           fst (read_file_by_name Sample.machine "notes.txt" Sample.st0)
           = Raise UnicodeDecodeError)
       /\ (x && r = false ->
           fst (read_file_by_name Sample.machine "notes.txt" Sample.st0)
           = Raise (PermissionError (OsArgs (join "/srv/app" "notes.txt")))).
Proof.
  split; [reflexivity|]. split; [reflexivity|]. split; [reflexivity|].
  refine (read_file_by_name_reads_first_match
            Sample.machine "notes.txt" Sample.st0 [] "/srv/app" _ _ _
            eq_refl eq_refl eq_refl eq_refl _ eq_refl).
  intros t [].
Defined.

Example read_file_by_name_shadowing :
  read_file_by_name Sample.machine "main.py" Sample.st0
  = (Ok "print(1)", printed Sample.st0 "Found file main.py in /srv/app.")
  /\ content_at Sample.machine "/srv/app/plugins/main.py" = Some "shadowed".
Proof. split; reflexivity. Qed.

End ReadByName.

(** ** Errors other than not-found *)

Section Propagation.
Import Str PosixPath FS Plugin Obs.





Example permission_denied_propagates :
  read_file_by_path Sample.machine "plugins/private.txt" Sample.st0
  = (Raise (PermissionError (OsArgs "/srv/app/plugins/private.txt")), Sample.st0)
  /\ read_file_by_path Sample.machine "plugins/blob.bin" Sample.st0
     = (Raise UnicodeDecodeError, Sample.st0).
Proof. split; reflexivity. Qed.

End Propagation.

(** ** The entry point *)

Section EntryPoint.
Import Main Obs.

Lemma announce_prints responses out :
  announce responses out = (Ok tt, out ++ map responded_line responses).
Proof.
  revert out. induction responses as [|r rs IH]; intros out; simpl.
  - now rewrite app_nil_r.
  - unfold bind, print. simpl. rewrite IH, <- app_assoc. reflexivity.
Qed.

Lemma collect_filter agent_name messages acc :
  collect agent_name messages acc
  = acc ++ filter (authored_by agent_name) messages.
Proof.
  revert acc. induction messages as [|m ms IH]; intros acc; simpl.
  - now rewrite app_nil_r.
  - destruct (authored_by agent_name m); rewrite IH; [|reflexivity].
    now rewrite <- app_assoc.
Qed.

Lemma filter_none {A} (f : A -> bool) (l : list A) :
  (forall a, In a l -> f a = false) -> filter f l = [].
Proof.
  induction l as [|a l IH]; intros H; simpl; [reflexivity|].
  rewrite (H a (or_introl eq_refl)). apply IH. intros b Hb. apply H. now right.
Qed.

Lemma main_eq agent_name responses history out :
  main agent_name responses history out =
  let out' := out ++ map responded_line responses ++ ["Final content:"] in
  match filter (authored_by agent_name) (rev history) with
  | m :: _ => (Ok tt, out' ++ [content m])
  | [] => (Raise (IndexError "list index out of range"), out')
  end.
Proof.
  unfold main, bind. rewrite announce_prints. unfold print at 1. simpl.
  rewrite collect_filter. unfold get_chat_messages. simpl.
  rewrite <- app_assoc.
  destruct (filter (authored_by agent_name) (rev history)); reflexivity.
Qed.

Lemma authored_by_name agent_name m :
  authored_by agent_name m = true <-> name m = Some agent_name.
Proof.
  unfold authored_by. destruct (name m) as [n|].
  - split.
    + intros H. apply String.eqb_eq in H. now subst.
    + intros [= ->]. apply String.eqb_refl.
  - split; discriminate.
Qed.

(** C8: for each response, in order, [main] prints the line
    [==== <name> just responded ====] with the name of the responding
    agent ([None] when the response has no name); then it prints the
    heading [Final content:] and the content of the newest message of the
    chat history whose name is the first agent's: the first entry of the
    newest-first history once the other agents' messages are left out. *)
Theorem main_prints_names_and_latest_content
        agent_name responses older m newer out :
  name m = Some agent_name ->
  (forall m', In m' newer -> name m' <> Some agent_name) ->
  main agent_name responses (older ++ m :: newer) out
  = (Ok tt,
     out
       ++ map (fun response =>
                 ("==== "
                    ++ match name response with
                       | Some n => n
                       | None => "None"
                       end
                    ++ " just responded ====")%string)
              responses
       ++ ["Final content:"; content m])
  /\ hd_error (filter (authored_by agent_name)
                      (get_chat_messages (older ++ m :: newer))) = Some m.
Proof.
  intros Hm Hnew. apply authored_by_name in Hm.
  assert (Hnew' : forall m', In m' newer -> authored_by agent_name m' = false).
  { intros m' Hin. destruct (authored_by agent_name m') eqn:E; [|reflexivity].
    apply authored_by_name in E. now destruct (Hnew m' Hin). }
  assert (E : filter (authored_by agent_name) (rev (older ++ m :: newer))
              = m :: filter (authored_by agent_name) (rev older)).
  { rewrite rev_app_distr. simpl. rewrite <- app_assoc, filter_app.
    rewrite (filter_none (authored_by agent_name) (rev newer)).
    - simpl. now rewrite Hm.
    - intros a Ha. apply Hnew'. now apply in_rev. }
  split.
  - rewrite main_eq. simpl. rewrite E. rewrite <- !app_assoc. reflexivity.
  - unfold get_chat_messages. now rewrite E.
Qed.

Lemma main_prints_names_and_latest_content_witness :
  main "writer"
       [ {| name := Some "writer"; content := "draft" |};
         {| name := None; content := "ok" |} ]
       ([ {| name := None; content := "task" |};
          {| name := Some "writer"; content := "draft" |} ]
          ++ {| name := Some "writer"; content := "final" |}
          :: [ {| name := Some "checker"; content := "fine" |} ])
       []
  = (Ok tt,
     ["==== writer just responded ====";
      "==== None just responded ====";
      "Final content:";
      "final"]).
Proof.
  refine (proj1 (main_prints_names_and_latest_content
                   "writer"
                   [ {| name := Some "writer"; content := "draft" |};
                     {| name := None; content := "ok" |} ]
                   _ {| name := Some "writer"; content := "final" |}
                   _ [] eq_refl _)).
  intros m' [<- | []]. discriminate.
Defined.

(** C9: when no message of the chat history has the first agent as its
    author, [main] prints the response lines and the heading, then raises
    [IndexError] at [content_history[0]]; no content line is printed. *)
Theorem main_raises_IndexError_without_content
        agent_name responses history out :
  (forall m, In m history -> authored_by agent_name m = false) ->
  main agent_name responses history out
  = (Raise (IndexError "list index out of range"),
     out ++ map responded_line responses ++ ["Final content:"]).
Proof.
  intros H. rewrite main_eq. simpl.
  rewrite (filter_none (authored_by agent_name) (rev history)); [reflexivity|].
  intros a Ha. apply H. now apply in_rev.
Qed.

Lemma main_raises_IndexError_without_content_witness :
  main "writer" [ {| name := Some "checker"; content := "no" |} ]
       [ {| name := None; content := "task" |};
         {| name := Some "checker"; content := "no" |} ] []
  = (Raise (IndexError "list index out of range"),
     ["==== checker just responded ===="; "Final content:"]).
Proof.
  refine (main_raises_IndexError_without_content "writer" _ _ [] _).
  intros m [<- | [<- | []]]; reflexivity.
Defined.

End EntryPoint.


(* ===================================================================== *)
(** * Further properties of the plugin and of the entry point *)

(** ** Text that comes back *)

Section ReturnedText.
Import Str PosixPath FS Plugin Obs.

Lemma translate_newlines_drops_CR (s : string) :
  Text.has_char Text.CR (Text.translate_newlines s) = false
  /\ forall c, Text.has_char Text.CR (Text.translate_newlines (String c s)) = false.
Proof.
  induction s as [|d s [IH1 IH2]].
  - split; [reflexivity|]. intros c. simpl.
    destruct (Ascii.eqb c Text.CR) eqn:E; simpl; [reflexivity|].
    now rewrite E.
  - split; [apply IH2|]. intros c.
    change (Text.translate_newlines (String c (String d s)))
      with (if Ascii.eqb c Text.CR
            then (if Ascii.eqb d Text.LF
                  then String Text.LF (Text.translate_newlines s)
                  else String Text.LF (Text.translate_newlines (String d s)))
            else String c (Text.translate_newlines (String d s))).
    destruct (Ascii.eqb c Text.CR) eqn:E.
    + destruct (Ascii.eqb d Text.LF).
      * change (Text.has_char Text.CR (Text.translate_newlines s) = false).
        exact IH1.
      * change (Text.has_char Text.CR (Text.translate_newlines (String d s))
                = false).
        apply IH2.
    + change (Ascii.eqb c Text.CR
              || Text.has_char Text.CR (Text.translate_newlines (String d s))
              = false).
      now rewrite E, IH2.
Qed.

Lemma decode_drops_CR data text :
  Text.decode data = Ok text -> Text.has_char Text.CR text = false.
Proof.
  unfold Text.decode. destruct (Text.utf8_valid data); [|discriminate].
  intros [= <-]. apply translate_newlines_drops_CR.
Qed.

(** X1: whatever [read_file_by_path] or [read_file_by_name] returns holds
    no carriage return: text-mode reading has turned every one into a line
    feed, or dropped it before a line feed. *)
Theorem returned_text_has_no_carriage_return e st :
  (forall path text st',
      read_file_by_path e path st = (Ok text, st') ->
      Text.has_char Text.CR text = false)
  /\ (forall file_name text st',
         read_file_by_name e file_name st = (Ok text, st') ->
         Text.has_char Text.CR text = false).
Proof.
  split.
  - intros path text st' H. rewrite read_file_by_path_eq in H. simpl in H.
    destruct (read_text e (join (root_dir (self st)) path)) as [t | err] eqn:E.
    + injection H as <- _.
      destruct (read_text_ok _ _ _ E) as (tr & data & _ & Hd).
      exact (decode_drops_CR _ _ Hd).
    + destruct (is_FileNotFoundError err); discriminate.
  - intros file_name text st' H. rewrite read_file_by_name_eq in H.
    destruct (search_cases e file_name (walk e (root_dir (self st))) st)
      as [[_ E] | (before & d & dirs & files & after & _ & _ & _ & E)];
      rewrite E in H; [discriminate|].
    injection H as Ht _.
    destruct (read_text_ok _ _ _ Ht) as (tr & data & _ & Hd).
    exact (decode_drops_CR _ _ Hd).
Qed.

Lemma returned_text_has_no_carriage_return_witness :
  read_file_by_path Sample.machine "notes.txt" Sample.st0
  = (Ok (String "a" (String Text.LF "b")), Sample.st0)
  /\ Text.has_char Text.CR (String "a" (String Text.LF "b")) = false.
Proof.
  split; [reflexivity|].
  exact (proj1 (returned_text_has_no_carriage_return Sample.machine Sample.st0)
               "notes.txt" _ _ eq_refl).
Defined.

End ReturnedText.

(** ** Paths the caller passes *)

Section CallerPaths.
Import Str PosixPath FS Plugin Obs.

Lemma join_absolute (a b : string) : isabs b = true -> join a b = b.
Proof. unfold join, isabs. now intros ->. Qed.

(** X2: an absolute path makes the root irrelevant: [read_file_by_path]
    and [list_directory] then give the same result whatever [root_dir] is,
    and a file that can be read at that path is returned. *)
Theorem absolute_path_ignores_root e path st1 st2 :
  isabs path = true ->
  fst (read_file_by_path e path st1) = fst (read_file_by_path e path st2)
  /\ fst (list_directory e path st1) = fst (list_directory e path st2)
  /\ (forall text,
         read_text e path = Ok text ->
         read_file_by_path e path st1 = (Ok text, st1)).
Proof.
  intros Ha. split; [|split].
  - rewrite !read_file_by_path_eq. simpl. rewrite !(join_absolute _ _ Ha).
    destruct (read_text e path) as [t | err]; [reflexivity|].
    destruct (is_FileNotFoundError err); reflexivity.
  - rewrite !list_directory_eq. simpl. rewrite !(join_absolute _ _ Ha).
    destruct (listdir e path) as [t | err]; [reflexivity|].
    destruct (is_FileNotFoundError err); reflexivity.
  - intros text H. rewrite read_file_by_path_eq. simpl.
    now rewrite (join_absolute _ _ Ha), H.
Qed.

Lemma absolute_path_ignores_root_witness :
  isabs "/srv/secret.txt" = true
  /\ fst (read_file_by_path Sample.machine "/srv/secret.txt" Sample.st0)
     = fst (read_file_by_path Sample.machine "/srv/secret.txt" Sample.fresh)
  /\ read_file_by_path Sample.machine "/srv/secret.txt" Sample.st0
     = (Ok "top secret", Sample.st0).
Proof.
  split; [reflexivity|].
  pose proof (absolute_path_ignores_root
                Sample.machine "/srv/secret.txt" Sample.st0 Sample.fresh eq_refl)
    as (H1 & _ & H3).
  split; [exact H1 | exact (H3 "top secret" eq_refl)].
Defined.

(** The empty path joined to a root that is a directory leads to the root. *)
Lemma resolve_join_empty e root tr r x es :
  isabs root = true -> resolve e root = inr (tr, Dir r x es) ->
  resolve e (join root "") = inr (tr, Dir r x es).
Proof.
  intros Ha Hr. unfold resolve in *.
  rewrite (resolve_as_join false e root "" Ha eq_refl), Hr. reflexivity.
Qed.

(** X3: the empty path stands for the root itself: [list_directory ""]
    lists the root directory (or raises [PermissionError] when the process
    may not read it), and [read_file_by_path ""] raises
    [IsADirectoryError] (or [PermissionError] likewise). *)
Theorem empty_path_is_the_root e st tr r x es :
  isabs (root_dir (self st)) = true ->
  resolve e (root_dir (self st)) = inr (tr, Dir r x es) ->
  list_directory e "" st
  = ((if r then Ok (join_with nl (map fst es))
      else Raise (PermissionError (OsArgs (join (root_dir (self st)) "")))),
     st)
  /\ read_file_by_path e "" st
     = (Raise (if r
               then IsADirectoryError (OsArgs (join (root_dir (self st)) ""))
               else PermissionError (OsArgs (join (root_dir (self st)) ""))),
        st).
Proof.
  intros Ha Hr. pose proof (resolve_join_empty e _ tr r x es Ha Hr) as Hj.
  split.
  - rewrite list_directory_eq. simpl. unfold listdir. rewrite Hj.
    destruct r; reflexivity.
  - rewrite read_file_by_path_eq. simpl. unfold read_text, FS.open. rewrite Hj.
    destruct r; reflexivity.
Qed.

Lemma empty_path_is_the_root_witness :
  exists tr r x es,
    isabs (root_dir (self Sample.st0)) = true
    /\ resolve Sample.machine (root_dir (self Sample.st0)) = inr (tr, Dir r x es)
    /\ list_directory Sample.machine "" Sample.st0
       = ((if r then Ok (join_with nl (map fst es))
           else Raise (PermissionError
                         (OsArgs (join (root_dir (self Sample.st0)) "")))),
          Sample.st0).
Proof.
  eexists. eexists. eexists. eexists.
  split; [reflexivity|]. split; [reflexivity|].
  exact (proj1 (empty_path_is_the_root Sample.machine Sample.st0 _ _ _ _
                  eq_refl eq_refl)).
Defined.

End CallerPaths.

(** ** Listing and reading together *)

Section ListingAndReading.
Import Str PosixPath FS Plugin Obs.

Lemma listdir_not_found e p a :
  listdir e p = Raise (FileNotFoundError a) <->
  resolve e p = inl ENOENT /\ a = OsArgs p.
Proof.
  unfold listdir.
  destruct (resolve e p) as [err | [tr [r data | r x es]]]; simpl.
  - destruct err; simpl; (split; [intros H | intros [H1 H2]]);
      try discriminate.
    + injection H as <-. now split.
    + now subst a.
  - split; [intros H | intros [H1 H2]]; discriminate.
  - destruct r; (split; [intros H | intros [H1 H2]]); discriminate.
Qed.

(** X4, for a tree of directories and regular files. Every not-found
    error [list_directory] raises is the one with the plugin's message,
    and it is raised only when resolving the joined path meets a missing
    component; for a plain joined path the converse holds. When anything
    exists at the joined path no not-found error is raised, and a regular
    file there gives [NotADirectoryError]. *)
Theorem list_directory_not_found_exactly_when e path st :
  (forall a,
      fst (list_directory e path st) = Raise (FileNotFoundError a) ->
      resolve e (join (root_dir (self st)) path) = inl ENOENT
      /\ a = Msg ("Directory " ++ join (root_dir (self st)) path
                               ++ " not found in repository.")%string)
  /\ (Limits.plain_path (join (root_dir (self st)) path) = true ->
      resolve e (join (root_dir (self st)) path) = inl ENOENT ->
      fst (list_directory e path st)
      = Raise (FileNotFoundError
                 (Msg ("Directory " ++ join (root_dir (self st)) path
                                    ++ " not found in repository.")%string)))
  /\ (forall tr n a,
         stat_any e (join (root_dir (self st)) path) = inr (tr, n) ->
         fst (list_directory e path st) <> Raise (FileNotFoundError a))
  /\ (forall tr r data,
         resolve e (join (root_dir (self st)) path) = inr (tr, File r data) ->
         fst (list_directory e path st)
         = Raise (NotADirectoryError (OsArgs (join (root_dir (self st)) path)))).
Proof.
  assert (P1 : forall a,
             fst (list_directory e path st) = Raise (FileNotFoundError a) ->
             resolve e (join (root_dir (self st)) path) = inl ENOENT
             /\ a = Msg ("Directory " ++ join (root_dir (self st)) path
                                      ++ " not found in repository.")%string).
  { intros a. rewrite list_directory_eq. simpl.
    pose proof (listdir_not_found e (join (root_dir (self st)) path)) as Hnf.
    destruct (listdir e (join (root_dir (self st)) path)) as [files | err].
    - simpl. discriminate.
    - destruct err as [a0 | a0 | a0 | a0 | | m]; simpl; try discriminate.
      destruct (proj1 (Hnf a0) eq_refl) as [Hr _].
      unfold directory_missing. intros [= <-]. now split. }
  split; [exact P1|]. split; [|split].
  - intros _ Hr. rewrite list_directory_eq. simpl.
    unfold listdir. now rewrite Hr.
  - intros tr n a Hs Hf. apply P1 in Hf. destruct Hf as [Hr _].
    apply resolve_ENOENT in Hr. congruence.
  - intros tr r data Hr. rewrite list_directory_eq. simpl.
    unfold listdir. now rewrite Hr.
Qed.

Lemma list_directory_not_found_exactly_when_witness :
  Limits.plain_path (join (root_dir (self Sample.st0)) "zzz") = true
  /\ resolve Sample.machine (join (root_dir (self Sample.st0)) "zzz")
     = inl ENOENT
  /\ fst (list_directory Sample.machine "zzz" Sample.st0)
     = Raise (FileNotFoundError
                (Msg "Directory /srv/app/zzz not found in repository.")).
Proof.
  split; [reflexivity|]. split; [reflexivity|].
  exact (proj1 (proj2 (list_directory_not_found_exactly_when
                         Sample.machine "zzz" Sample.st0))
               eq_refl eq_refl).
Defined.

(** X5: no path serves both methods: where [read_file_by_path] returns a
    text, [list_directory] raises [NotADirectoryError], and where
    [list_directory] returns a listing, [read_file_by_path] raises
    [IsADirectoryError]. *)
Theorem file_or_directory_not_both e path st :
  (forall text st',
      read_file_by_path e path st = (Ok text, st') ->
      list_directory e path st
      = (Raise (NotADirectoryError (OsArgs (join (root_dir (self st)) path))),
         st))
  /\ (forall listing st',
         list_directory e path st = (Ok listing, st') ->
         read_file_by_path e path st
         = (Raise (IsADirectoryError (OsArgs (join (root_dir (self st)) path))),
            st)).
Proof.
  split.
  - intros text st' H. rewrite read_file_by_path_eq in H. simpl in H.
    destruct (read_text e (join (root_dir (self st)) path)) as [t | err] eqn:E.
    + destruct (read_text_ok _ _ _ E) as (tr & data & Hr & _).
      rewrite list_directory_eq. simpl. unfold listdir. now rewrite Hr.
    + destruct (is_FileNotFoundError err); discriminate.
  - intros listing st' H. rewrite list_directory_eq in H. simpl in H.
    destruct (listdir e (join (root_dir (self st)) path)) as [fs | err] eqn:E.
    + destruct (listdir_ok _ _ _ E) as (tr & x & es & Hr & _).
      rewrite read_file_by_path_eq. simpl. unfold read_text, FS.open.
      now rewrite Hr.
    + destruct (is_FileNotFoundError err); discriminate.
Qed.

Lemma file_or_directory_not_both_witness :
  list_directory Sample.machine "plugins" Sample.st0
  = (Ok (join_with nl
           ["repo_file_plugin.py"; "main.py"; "blob.bin"; "private.txt"]),
     Sample.st0)
  /\ read_file_by_path Sample.machine "plugins" Sample.st0
     = (Raise (IsADirectoryError (OsArgs "/srv/app/plugins")), Sample.st0).
Proof.
  split; [reflexivity|].
  exact (proj2 (file_or_directory_not_both Sample.machine "plugins" Sample.st0)
               _ _ eq_refl).
Defined.

Lemma endswith_sep_app_nonempty (a b : string) :
  String.eqb b "" = false -> endswith_sep (a ++ b) = endswith_sep b.
Proof.
  intros Hb. induction a as [|c a IH]; [reflexivity|].
  simpl. destruct (a ++ b)%string as [|d s] eqn:E.
  - destruct a; [simpl in E; subst b; discriminate | discriminate].
  - exact IH.
Qed.

Lemma append_nil_r (a : string) : (a ++ "")%string = a.
Proof. induction a as [|c a IH]; simpl; [reflexivity | now rewrite IH]. Qed.

Lemma append_assoc (a b c : string) :
  ((a ++ b) ++ c = a ++ (b ++ c))%string.
Proof. induction a as [|x a IH]; simpl; [reflexivity | now rewrite IH]. Qed.






End ListingAndReading.

(** ** Searching by name *)

Section SearchByName.
Import Str PosixPath FS Plugin Obs Tree.

Lemma In_nondir_names name r data es :
  In (name, File r data) es -> In name (nondir_names es).
Proof.
  intros H. unfold nondir_names.
  apply (in_map fst _ (name, File r data)). apply filter_In. now split.
Qed.

Lemma listed_names_are_good e root d dirs files name :
  wf_env e = true -> isabs root = true ->
  In (d, dirs, files) (walk e root) -> contains name files = true ->
  good_name name = true.
Proof.
  intros Hw Ha Hin Hc.
  destruct (walk_sound e root d dirs files Hw Ha Hin)
    as (rtr & rn & ext & x & es & _ & _ & _ & _ & Hfs & Hwd).
  apply existsb_eqb_In in Hc. rewrite Hfs in Hc.
  destruct (in_nondir_names _ _ Hc) as (r & data & Hf).
  now destruct (wf_child _ _ _ _ _ Hwd Hf).
Qed.

(** X7: [read_file_by_name] takes a bare file name only: a name that is
    empty, is [.] or [..], or holds a slash (a relative path, say) is never
    found, whatever the tree holds. *)
Theorem read_file_by_name_takes_bare_names e st file_name :
  wf_env e = true ->
  isabs (root_dir (self st)) = true ->
  good_name file_name = false ->
  read_file_by_name e file_name st = (Raise (file_missing file_name), st).
Proof.
  intros Hw Ha Hg. rewrite read_file_by_name_eq. apply search_miss.
  intros [[d dirs] files] Hin. simpl.
  destruct (contains file_name files) eqn:Hc; [|reflexivity].
  pose proof (listed_names_are_good e _ d dirs files file_name Hw Ha Hin Hc).
  congruence.
Qed.

Lemma read_file_by_name_takes_bare_names_witness :
  good_name "plugins/main.py" = false
  /\ content_at Sample.machine "/srv/app/plugins/main.py" = Some "shadowed"
  /\ read_file_by_name Sample.machine "plugins/main.py" Sample.st0
     = (Raise (file_missing "plugins/main.py"), Sample.st0).
Proof.
  split; [reflexivity|]. split; [reflexivity|].
  exact (read_file_by_name_takes_bare_names
           Sample.machine Sample.st0 "plugins/main.py" eq_refl eq_refl eq_refl).
Defined.

(** X8, for a tree of directories and regular files: when the process
    may list the root directory, a regular file right in it is the one
    [read_file_by_name] reads, whatever files of the same name lie deeper.
    The line printed names the root, and the outcome is what text-mode
    reading of that file gives, or [PermissionError] when the process may
    not search the root or read the file. *)
Theorem root_level_file_wins e st tr x es file_name r data :
  wf_env e = true ->
  isabs (root_dir (self st)) = true ->
  Limits.plain_path (join (root_dir (self st)) file_name) = true ->
  resolve e (root_dir (self st)) = inr (tr, Dir true x es) ->
  lookup file_name es = Some (File r data) ->
  read_file_by_name e file_name st
  = ((if x && r
      then (if Text.utf8_valid data then Ok (Text.translate_newlines data)
            else Raise UnicodeDecodeError)
      else Raise (PermissionError
                    (OsArgs (join (root_dir (self st)) file_name)))),
     {| self := self st;
        stdout := stdout st
                  ++ [("Found file " ++ file_name ++ " in "
                                     ++ root_dir (self st) ++ ".")%string] |}).
Proof.
  intros Hw Ha _ Hr Hl.
  pose proof (lookup_In _ _ _ Hl) as Hin.
  pose proof (resolve_as_wf _ _ _ _ _ Hw Hr) as Hwd.
  destruct (wf_child _ _ _ _ _ Hwd Hin) as [Hg _].
  rewrite read_file_by_name_eq. unfold walk. rewrite Hr, walk_node_dir.
  rewrite search_hit.
  - unfold printed, found_line. f_equal. unfold read_text, FS.open, resolve.
    rewrite (resolve_as_join false e _ file_name Ha (good_name_rel _ Hg)).
    unfold resolve in Hr. rewrite Hr, (walk_path_name false _ _ _ _ _ Hg), Hl.
    destruct x; simpl; [|reflexivity].
    destruct r; simpl; [|reflexivity].
    unfold read, Text.decode. simpl.
    destruct (Text.utf8_valid data); reflexivity.
  - apply existsb_eqb_In. exact (In_nondir_names _ _ _ _ Hin).
Qed.

Lemma root_level_file_wins_witness :
  exists tr x es,
    Limits.plain_path (join (root_dir (self Sample.st0)) "main.py") = true
    /\ resolve Sample.machine (root_dir (self Sample.st0))
       = inr (tr, Dir true x es)
    /\ lookup "main.py" es = Some (File true "print(1)")
    /\ content_at Sample.machine "/srv/app/plugins/main.py" = Some "shadowed"
    /\ x = true
    /\ read_file_by_name Sample.machine "main.py" Sample.st0
       = (Ok "print(1)",
          {| self := {| root_dir := "/srv/app" |};
             stdout := ["Found file main.py in /srv/app."] |}).
Proof.
  eexists. eexists. eexists.
  split; [reflexivity|]. split; [reflexivity|]. split; [reflexivity|].
  split; [reflexivity|]. split; [reflexivity|].
  exact (root_level_file_wins Sample.machine Sample.st0 _ _ _ "main.py"
           true "print(1)" eq_refl eq_refl eq_refl eq_refl eq_refl).
Defined.

Lemma occurs_dir name r x es :
  occurs name (Dir r x es) =
  existsb (fun p => String.eqb name (fst p) && negb (is_dir (snd p))) es
  || existsb (fun p => occurs name (snd p)) es.
Proof.
  simpl. f_equal.
  induction es as [|[k c] es IH]; simpl; [reflexivity|]. now rewrite IH.
Qed.

Lemma open_tree_dir r x es :
  open_tree (Dir r x es) = r && x && forallb (fun p => open_tree (snd p)) es.
Proof.
  simpl. f_equal.
  induction es as [|[k c] es IH]; simpl; [reflexivity|]. now rewrite IH.
Qed.

Lemma contains_nondir_names name es :
  contains name (nondir_names es)
  = existsb (fun p => String.eqb name (fst p) && negb (is_dir (snd p))) es.
Proof.
  unfold contains, nondir_names.
  induction es as [|[k c] es IH]; simpl; [reflexivity|].
  destruct (is_dir c); simpl.
  - now rewrite andb_false_r.
  - now rewrite andb_true_r, IH.
Qed.

(** In a tree the process may list and search throughout, the walk lists
    a name among some directory's files exactly when a file of that name
    lies in the tree. *)
Lemma walk_node_occurs name :
  forall n top,
    open_tree n = true ->
    existsb (fun t => contains name (snd t)) (walk_node top n) = occurs name n.
Proof.
  induction n as [r data | r x es IH] using node_induction;
    intros top Ho; [reflexivity|].
  rewrite open_tree_dir, !andb_true_iff in Ho. destruct Ho as [[-> ->] Ho].
  rewrite walk_node_dir, occurs_dir. simpl.
  rewrite contains_nondir_names. f_equal.
  induction es as [|[k c] es IHes]; simpl; [reflexivity|].
  simpl in Ho. apply andb_true_iff in Ho. destruct Ho as [Hc Ho].
  rewrite existsb_app. f_equal.
  - exact (Forall_inv IH (join top k) Hc).
  - exact (IHes (Forall_inv_tail IH) Ho).
Qed.

Lemma read_text_not_missing e p name :
  read_text e p <> Raise (file_missing name).
Proof.
  intros H. unfold file_missing in H.
  apply read_text_not_found in H. destruct H as [_ H]. discriminate.
Qed.

(** X9, for a tree of directories and regular files: when the process
    may list and search every directory under the root and every directory
    path the walk goes through is plain, the search is complete:
    [read_file_by_name] raises the not-found error with the plugin's
    message exactly when no regular file of that name lies anywhere in the
    tree below the root. *)
Theorem read_file_by_name_finds_what_exists e st tr n file_name :
  resolve e (root_dir (self st)) = inr (tr, n) ->
  open_tree n = true ->
  (forall t, In t (walk e (root_dir (self st))) ->
             Limits.plain_path (fst (fst t)) = true) ->
  fst (read_file_by_name e file_name st)
  = Raise (FileNotFoundError
             (Msg ("File " ++ file_name ++ " not found in repository.")%string))
  <-> occurs file_name n = false.
Proof.
  intros Hr Ho _. rewrite read_file_by_name_eq.
  pose proof (walk_node_occurs file_name n (root_dir (self st)) Ho) as Hw.
  assert (Ew : walk e (root_dir (self st)) = walk_node (root_dir (self st)) n).
  { unfold walk. now rewrite Hr. }
  rewrite <- Ew in Hw.
  destruct (search_cases e file_name (walk e (root_dir (self st))) st)
    as [[Hno E] | (before & d & dirs & files & after & Hl & _ & Hf & E)];
    rewrite E; simpl.
  - split; [|reflexivity]. intros _. rewrite <- Hw.
    destruct (existsb (fun t => contains file_name (snd t))
                      (walk e (root_dir (self st)))) eqn:X; [|reflexivity].
    apply existsb_exists in X. destruct X as (t & Ht & Hc).
    rewrite (Hno t Ht) in Hc. discriminate.
  - assert (X : existsb (fun t => contains file_name (snd t))
                        (walk e (root_dir (self st))) = true).
    { apply existsb_exists. exists (d, dirs, files). split; [|exact Hf].
      rewrite Hl. apply in_or_app. right. now left. }
    rewrite Hw in X. split.
    + intros H. now apply read_text_not_missing in H.
    + intros H. congruence.
Qed.

Lemma read_file_by_name_finds_what_exists_witness :
  exists tr n,
    resolve Sample.machine "/srv/app/plugins" = inr (tr, n)
    /\ open_tree n = true
    /\ walk Sample.machine "/srv/app/plugins"
       = [("/srv/app/plugins", [],
           ["repo_file_plugin.py"; "main.py"; "blob.bin"; "private.txt"])]
    /\ Limits.plain_path "/srv/app/plugins" = true
    /\ occurs "readme.md" n = false
    /\ occurs "main.py" n = true
    /\ fst (read_file_by_name Sample.machine "readme.md"
              {| self := {| root_dir := "/srv/app/plugins" |}; stdout := [] |})
       = Raise (FileNotFoundError
                  (Msg "File readme.md not found in repository.")).
Proof.
  eexists. eexists.
  split; [reflexivity|]. split; [reflexivity|]. split; [reflexivity|].
  split; [reflexivity|]. split; [reflexivity|]. split; [reflexivity|].
  refine (proj2 (read_file_by_name_finds_what_exists
                   Sample.machine
                   {| self := {| root_dir := "/srv/app/plugins" |};
                      stdout := [] |}
                   _ _ "readme.md" eq_refl eq_refl _)
                eq_refl).
  intros t [<- | []]. reflexivity.
Defined.

(** X10, for a well-formed tree of directories and regular files, a
    plain root, and a name that gives plain paths in the directories of
    the walk: [read_file_by_name] has two kinds of outcome. Either nothing
    is printed and the not-found error with the plugin's message is
    raised; or exactly one line is printed, naming a directory [d] of the
    walk that lists the name, and the outcome is a text,
    [PermissionError] for the file in [d], or [UnicodeDecodeError]. The
    line is printed also when opening the file then fails. *)
Theorem read_file_by_name_outcomes e st file_name :
  wf_env e = true ->
  isabs (root_dir (self st)) = true ->
  Limits.plain_path (root_dir (self st)) = true ->
  (forall t, In t (walk e (root_dir (self st))) ->
             Limits.plain_path (join (fst (fst t)) file_name) = true) ->
  read_file_by_name e file_name st
  = (Raise (FileNotFoundError
              (Msg ("File " ++ file_name ++ " not found in repository.")%string)),
     st)
  \/ exists d dirs files,
       In (d, dirs, files) (walk e (root_dir (self st)))
       /\ contains file_name files = true
       /\ snd (read_file_by_name e file_name st)
          = {| self := self st;
               stdout := stdout st
                         ++ [("Found file " ++ file_name ++ " in " ++ d
                                            ++ ".")%string] |}
       /\ match fst (read_file_by_name e file_name st) with
          | Ok _ => True
          | Raise (PermissionError (OsArgs p)) => p = join d file_name
          | Raise UnicodeDecodeError => True
          | Raise _ => False
          end.
Proof.
  intros Hw Ha _ _.
  destruct (search_cases e file_name (walk e (root_dir (self st))) st)
    as [[_ E] | (before & d & dirs & files & after & Hl & Hb & Hf & E)].
  - left. now rewrite read_file_by_name_eq.
  - right. exists d, dirs, files.
    destruct (read_file_by_name_first e file_name st before d dirs files after
                Hw Ha Hl Hb Hf)
      as (rtr & rn & ext & x & es & r & data & _ & _ & _ & _ & Hrt & E').
    split; [rewrite Hl; apply in_or_app; right; now left|].
    split; [exact Hf|].
    rewrite E', Hrt. split; [reflexivity|]. simpl.
    destruct (x && r); [|reflexivity].
    unfold Text.decode. destruct (Text.utf8_valid data); exact I.
Qed.

Lemma read_file_by_name_outcomes_witness :
  read_file_by_name Sample.machine "private.txt" Sample.st0
  = (Raise (PermissionError (OsArgs "/srv/app/plugins/private.txt")),
     {| self := {| root_dir := "/srv/app" |};
        stdout := ["Found file private.txt in /srv/app/plugins."] |})
  /\ Limits.plain_path (root_dir (self Sample.st0)) = true
  /\ (read_file_by_name Sample.machine "private.txt" Sample.st0
      = (Raise (FileNotFoundError
                  (Msg "File private.txt not found in repository.")),
         Sample.st0)
      \/ exists d dirs files,
           In (d, dirs, files)
              (walk Sample.machine (root_dir (self Sample.st0)))
           /\ contains "private.txt" files = true
           /\ snd (read_file_by_name Sample.machine "private.txt" Sample.st0)
              = {| self := self Sample.st0;
                   stdout := stdout Sample.st0
                             ++ [("Found file " ++ "private.txt" ++ " in " ++ d
                                                ++ ".")%string] |}
           /\ match fst (read_file_by_name Sample.machine "private.txt"
                           Sample.st0) with
              | Ok _ => True
              | Raise (PermissionError (OsArgs p)) => p = join d "private.txt"
              | Raise UnicodeDecodeError => True
              | Raise _ => False
              end).
Proof.
  split; [reflexivity|]. split; [reflexivity|].
  refine (read_file_by_name_outcomes Sample.machine Sample.st0 "private.txt"
            eq_refl eq_refl eq_refl _).
  intros t [<- | [<- | [<- | []]]]; reflexivity.
Defined.

(** X11, for a well-formed tree of directories and regular files: the
    directory named in the line [read_file_by_name] prints, joined with
    the file name, is a path [read_file_by_path] reads to the same result,
    text or error. *)
Theorem found_path_reads_the_same e st file_name r st' :
  wf_env e = true ->
  isabs (root_dir (self st)) = true ->
  read_file_by_name e file_name st = (r, st') ->
  r <> Raise (file_missing file_name) ->
  exists d,
    st' = printed st (found_line file_name d)
    /\ read_file_by_path e (join d file_name) st = (r, st).
Proof.
  intros Hw Ha H Hr.
  destruct (search_cases e file_name (walk e (root_dir (self st))) st)
    as [[_ E] | (before & d & dirs & files & after & Hl & Hb & Hf & E)].
  - rewrite read_file_by_name_eq, E in H. injection H as <- _.
    now destruct Hr.
  - destruct (read_file_by_name_first e file_name st before d dirs files after
                Hw Ha Hl Hb Hf)
      as (rtr & rn & ext & x & es & r0 & data & _ & _ & _ & _ & Hrt & E').
    rewrite E' in H. injection H as <- <-.
    exists d. split; [reflexivity|].
    assert (Hin : In (d, dirs, files) (walk e (root_dir (self st)))).
    { rewrite Hl. apply in_or_app. right. now left. }
    destruct (walk_sound e _ d dirs files Hw Ha Hin)
      as (_ & _ & _ & _ & _ & _ & Hd & _).
    rewrite read_file_by_path_eq. simpl.
    rewrite (join_absolute _ _ (join_isabs d file_name Hd)).
    rewrite Hrt. destruct (x && r0); [|reflexivity].
    unfold Text.decode. destruct (Text.utf8_valid data); reflexivity.
Qed.

Lemma found_path_reads_the_same_witness :
  read_file_by_name Sample.machine "repo_file_plugin.py" Sample.st0
  = (Ok "import os",
     printed Sample.st0 "Found file repo_file_plugin.py in /srv/app/plugins.")
  /\ exists d,
       printed Sample.st0 "Found file repo_file_plugin.py in /srv/app/plugins."
       = printed Sample.st0 (found_line "repo_file_plugin.py" d)
       /\ read_file_by_path Sample.machine (join d "repo_file_plugin.py")
            Sample.st0
          = (Ok "import os", Sample.st0).
Proof.
  split; [reflexivity|].
  refine (found_path_reads_the_same Sample.machine Sample.st0
            "repo_file_plugin.py" _ _ eq_refl eq_refl eq_refl _).
  discriminate.
Defined.

End SearchByName.

(** ** The final content *)

Section FinalContent.
Import Main Obs.

Lemma filter_twice {A} (f : A -> bool) (l : list A) :
  filter f (filter f l) = filter f l.
Proof.
  induction l as [|a l IH]; simpl; [reflexivity|].
  destruct (f a) eqn:E; simpl; [now rewrite E, IH | exact IH].
Qed.

(** X12: [main] ends normally exactly when the chat history holds a
    message whose author is the first agent; the content it prints last
    is then that of such a message of the history; and the messages of
    other authors have no influence on what [main] does. *)
Theorem main_succeeds_exactly_when agent_name responses history out :
  (fst (main agent_name responses history out) = Ok tt
   <-> exists m, In m history /\ authored_by agent_name m = true)
  /\ (forall out',
         main agent_name responses history out = (Ok tt, out') ->
         exists m,
           In m history /\ authored_by agent_name m = true
           /\ out' = out ++ map responded_line responses
                         ++ ["Final content:"; content m])
  /\ main agent_name responses history out
     = main agent_name responses (filter (authored_by agent_name) history) out.
Proof.
  split; [|split].
  - rewrite main_eq. simpl.
    destruct (filter (authored_by agent_name) (rev history)) as [|m l] eqn:E.
    + split; [discriminate|]. intros (m & Hin & Hm). exfalso.
      assert (X : In m (filter (authored_by agent_name) (rev history))).
      { apply filter_In. split; [now apply in_rev in Hin | exact Hm]. }
      rewrite E in X. destruct X.
    + split; [|reflexivity]. intros _.
      assert (X : In m (filter (authored_by agent_name) (rev history)))
        by (rewrite E; now left).
      apply filter_In in X. destruct X as [Hin Hm].
      exists m. split; [now apply in_rev | exact Hm].
  - intros out' H. rewrite main_eq in H. simpl in H.
    destruct (filter (authored_by agent_name) (rev history)) as [|m l] eqn:E;
      [discriminate|].
    injection H as <-.
    assert (X : In m (filter (authored_by agent_name) (rev history)))
      by (rewrite E; now left).
    apply filter_In in X. destruct X as [Hin Hm].
    exists m. split; [now apply in_rev|]. split; [exact Hm|].
    now rewrite <- !app_assoc.
  - rewrite !main_eq. simpl.
    now rewrite (filter_rev (authored_by agent_name)
                            (filter (authored_by agent_name) history)),
      filter_twice, <- filter_rev.
Qed.

Lemma main_succeeds_exactly_when_witness :
  (exists m,
      In m [ {| name := Some "checker"; content := "no" |};
             {| name := Some "writer"; content := "post" |} ]
      /\ authored_by "writer" m = true)
  /\ fst (main "writer" []
            [ {| name := Some "checker"; content := "no" |};
              {| name := Some "writer"; content := "post" |} ] [])
     = Ok tt.
Proof.
  assert (H : exists m,
             In m [ {| name := Some "checker"; content := "no" |};
                    {| name := Some "writer"; content := "post" |} ]
             /\ authored_by "writer" m = true).
  { exists {| name := Some "writer"; content := "post" |}.
    split; [right; now left | reflexivity]. }
  split; [exact H|].
  exact (proj2 (proj1 (main_succeeds_exactly_when "writer" [] _ [])) H).
Defined.

End FinalContent.

(** ** Reading a listing back *)

Section ListingBack.
Import Str PosixPath FS Plugin Obs.

Import Tree.

Lemma join_with_cons x l :
  join_with nl (x :: l) = (x ++ listing_tail l)%string.
Proof.
  unfold join_with, listing_tail. destruct l as [|y l]; simpl.
  - now rewrite append_nil_r.
  - reflexivity.
Qed.

Lemma listing_tail_shape l :
  listing_tail l = "" \/ exists u, listing_tail l = String Text.LF u.
Proof. destruct l; [now left | right; eexists; reflexivity]. Qed.

(** Two one-line names followed by listing tails: equal strings have equal
    names and equal tails. *)
Lemma first_name_determined (a b u v : string) :
  one_line a = true -> one_line b = true ->
  (u = "" \/ exists u', u = String Text.LF u') ->
  (v = "" \/ exists v', v = String Text.LF v') ->
  (a ++ u = b ++ v)%string -> a = b /\ u = v.
Proof.
  unfold one_line. revert b.
  induction a as [|c a IH]; intros [|d b] Ha Hb Hu Hv E; simpl in *.
  - now split.
  - exfalso. apply negb_true_iff, orb_false_iff in Hb. destruct Hb as [Hd _].
    destruct Hu as [-> | [u' ->]]; [discriminate|].
    injection E as Ed _. subst d. now rewrite Ascii.eqb_refl in Hd.
  - exfalso. apply negb_true_iff, orb_false_iff in Ha. destruct Ha as [Hc _].
    destruct Hv as [-> | [v' ->]]; [discriminate|].
    injection E as Ec _. subst c. now rewrite Ascii.eqb_refl in Hc.
  - injection E as -> E.
    apply negb_true_iff, orb_false_iff in Ha. destruct Ha as [_ Ha].
    apply negb_true_iff, orb_false_iff in Hb. destruct Hb as [_ Hb].
    destruct (IH b) as [-> ->]; try assumption; try (now apply negb_true_iff).
    now split.
Qed.

Lemma join_with_injective (l1 l2 : list string) :
  forallb (fun k => negb (String.eqb k "") && one_line k) l1 = true ->
  forallb (fun k => negb (String.eqb k "") && one_line k) l2 = true ->
  join_with nl l1 = join_with nl l2 -> l1 = l2.
Proof.
  revert l2. induction l1 as [|x l1 IH]; intros [|y l2] H1 H2 E.
  - reflexivity.
  - exfalso. simpl in H2. rewrite !andb_true_iff, negb_true_iff in H2.
    destruct H2 as [[Hy _] _]. rewrite join_with_cons in E.
    destruct y; [discriminate Hy | discriminate E].
  - exfalso. simpl in H1. rewrite !andb_true_iff, negb_true_iff in H1.
    destruct H1 as [[Hx _] _]. rewrite join_with_cons in E.
    destruct x; [discriminate Hx | discriminate E].
  - simpl in H1, H2. rewrite !andb_true_iff in H1, H2.
    destruct H1 as [[_ Hx] H1]. destruct H2 as [[_ Hy] H2].
    rewrite !join_with_cons in E.
    destruct (first_name_determined x y _ _ Hx Hy
                (listing_tail_shape l1) (listing_tail_shape l2) E) as [-> Et].
    f_equal. apply IH; try assumption.
    destruct l1 as [|a l1], l2 as [|b l2]; try reflexivity;
      try discriminate Et.
    unfold listing_tail in Et. now injection Et.
Qed.

Lemma good_names_nonempty (l : list string) :
  forallb good_name l = true -> forallb one_line l = true ->
  forallb (fun k => negb (String.eqb k "") && one_line k) l = true.
Proof.
  induction l as [|k l IH]; simpl; [reflexivity|].
  rewrite !andb_true_iff. intros [Hg Hl] [Ho Hl'].
  apply good_name_spec in Hg. destruct Hg as [-> _].
  repeat split; auto.
Qed.

(** X13: a listing tells the entries apart as long as no name holds a
    newline: when [list_directory] returns the same string for two
    directories whose names are all free of newlines, the two have the
    same names in the same order. *)
Theorem listing_determines_entries e st p1 p2 tr1 x1 es1 tr2 x2 es2 :
  wf_env e = true ->
  resolve e (join (root_dir (self st)) p1) = inr (tr1, Dir true x1 es1) ->
  resolve e (join (root_dir (self st)) p2) = inr (tr2, Dir true x2 es2) ->
  forallb one_line (map fst es1) = true ->
  forallb one_line (map fst es2) = true ->
  fst (list_directory e p1 st) = fst (list_directory e p2 st) ->
  map fst es1 = map fst es2.
Proof.
  intros Hw H1 H2 O1 O2 E.
  rewrite !list_directory_eq in E. simpl in E. unfold listdir in E.
  rewrite H1, H2 in E. simpl in E. injection E as E.
  pose proof (resolve_as_wf _ _ _ _ _ Hw H1) as W1.
  pose proof (resolve_as_wf _ _ _ _ _ Hw H2) as W2.
  rewrite wf_node_dir, !andb_true_iff in W1, W2.
  apply join_with_injective; try assumption;
    apply good_names_nonempty; tauto.
Qed.

Lemma listing_determines_entries_witness :
  exists tr x es,
    resolve Sample.machine (join (root_dir (self Sample.st0)) "plugins")
    = inr (tr, Dir true x es)
    /\ resolve Sample.machine (join (root_dir (self Sample.st0)) "plugins/.")
       = inr (tr, Dir true x es)
    /\ forallb one_line (map fst es) = true
    /\ fst (list_directory Sample.machine "plugins" Sample.st0)
       = fst (list_directory Sample.machine "plugins/." Sample.st0)
    /\ map fst es = map fst es.
Proof.
  eexists. eexists. eexists.
  split; [reflexivity|]. split; [reflexivity|]. split; [reflexivity|].
  split; [reflexivity|].
  exact (listing_determines_entries Sample.machine Sample.st0
           "plugins" "plugins/." _ _ _ _ _ _
           eq_refl eq_refl eq_refl eq_refl eq_refl eq_refl).
Defined.

(** Names with a newline in them do make listings collide. *)
Example listing_with_newline_in_a_name :
  join_with nl [String "a" (String Text.LF "b")] = join_with nl ["a"; "b"].
Proof. reflexivity. Qed.

End ListingBack.

(** ** Where the root is *)

Section RootDirectory.
Import Str PosixPath FS Plugin Obs.

Lemma split_parts_no_sep (s c : string) : In c (split s) -> has_sep c = false.
Proof.
  revert c. induction s as [|a s IH]; intros c; simpl.
  - intros [<- | []]. reflexivity.
  - destruct (is_sep a) eqn:Ea.
    + intros [<- | H]; [reflexivity | now apply IH].
    + destruct (split s) as [|h t] eqn:Es.
      * intros [<- | []]. simpl. now rewrite Ea.
      * intros [<- | H].
        -- simpl. rewrite Ea. apply IH. now left.
        -- apply IH. now right.
Qed.

Lemma forallb_removelast {A} (f : A -> bool) (l : list A) :
  forallb f l = true -> forallb f (removelast l) = true.
Proof.
  induction l as [|a l IH]; [reflexivity|].
  simpl. intros H. apply andb_true_iff in H. destruct H as [Ha Hl].
  destruct l as [|b l]; [reflexivity|].
  change (f a && forallb f (removelast (b :: l)) = true).
  now rewrite Ha, (IH Hl).
Qed.

Lemma last_good (l : list string) :
  l <> [] -> forallb good_name l = true -> String.eqb (last l "") ".." = false.
Proof.
  intros Hn Hg.
  destruct (exists_last Hn) as (l' & a & ->).
  rewrite last_last. rewrite forallb_app in Hg.
  apply andb_true_iff in Hg. destruct Hg as [_ Hg]. simpl in Hg.
  rewrite andb_true_r in Hg. now apply good_name_spec in Hg.
Qed.

(** One turn of the loop of [normpath] on an absolute path keeps the
    components collected so far proper. *)
Lemma norm_step_good acc comp :
  has_sep comp = false -> forallb good_name acc = true ->
  forallb good_name (norm_step true acc comp) = true.
Proof.
  intros Hs Hg. unfold norm_step.
  destruct (String.eqb comp "") eqn:E0; [exact Hg|].
  destruct (String.eqb comp ".") eqn:E1; [exact Hg|]. simpl.
  destruct (String.eqb comp "..") eqn:E2; simpl.
  - destruct acc as [|a acc]; [reflexivity|].
    rewrite (last_good (a :: acc)); [|discriminate|exact Hg].
    now apply forallb_removelast.
  - rewrite forallb_app, Hg. simpl. unfold good_name.
    now rewrite E0, E1, E2, Hs.
Qed.

Lemma norm_fold_good comps acc :
  (forall c, In c comps -> has_sep c = false) ->
  forallb good_name acc = true ->
  forallb good_name (fold_left (norm_step true) comps acc) = true.
Proof.
  revert acc. induction comps as [|c comps IH]; intros acc Hs Hg; [exact Hg|].
  simpl. apply IH.
  - intros c' Hc'. apply Hs. now right.
  - apply norm_step_good; [apply Hs; now left | exact Hg].
Qed.

Lemma initial_slashes_range (p : string) :
  startswith_sep p = true -> initial_slashes p = 1 \/ initial_slashes p = 2.
Proof.
  destruct p as [|c0 [|c1 [|c2 p]]]; simpl; [discriminate| | |]; intros ->.
  - now left.
  - destruct (is_sep c1); [now right | now left].
  - destruct (is_sep c1 && negb (is_sep c2)); [now right | now left].
Qed.

Lemma normpath_absolute_shape (q : string) :
  isabs q = true ->
  exists n comps,
    (n = 1 \/ n = 2)
    /\ normpath q = (slashes n ++ join_with "/" comps)%string
    /\ forallb good_name comps = true.
Proof.
  intros Hq. unfold isabs in Hq.
  exists (initial_slashes q),
         (fold_left (norm_step (startswith_sep q)) (split q) []).
  split; [now apply initial_slashes_range|]. split.
  - unfold normpath. rewrite (startswith_sep_nonempty _ Hq).
    destruct (initial_slashes_pos _ Hq) as [k ->]. reflexivity.
  - rewrite Hq. apply norm_fold_good; [|reflexivity].
    intros c. apply split_parts_no_sep.
Qed.

(** X14: whatever the module's file path is, [__init__] leaves a
    normalised path in [root_dir] (the current directory being absolute):
    one or two leading slashes, then proper names separated by single
    slashes, with no empty, [.] or [..] component. *)
Theorem root_dir_is_normalised e __file__ st0 :
  isabs (cwd e) = true ->
  exists n comps,
    (n = 1 \/ n = 2)
    /\ root_dir (self (snd (__init__ e __file__ st0)))
       = (slashes n ++ join_with "/" comps)%string
    /\ forallb good_name comps = true.
Proof.
  intros Hc. simpl. unfold abspath. apply normpath_absolute_shape.
  destruct (isabs (join (dirname __file__) "..")) eqn:E; [exact E|].
  now apply join_isabs.
Qed.

Lemma root_dir_is_normalised_witness :
  isabs (cwd Sample.machine) = true
  /\ exists n comps,
       (n = 1 \/ n = 2)
       /\ root_dir (self (snd (__init__ Sample.machine "plugins/x.py"
                                 Sample.fresh)))
          = (slashes n ++ join_with "/" comps)%string
       /\ forallb good_name comps = true.
Proof.
  split; [reflexivity|].
  exact (root_dir_is_normalised Sample.machine "plugins/x.py" Sample.fresh
           eq_refl).
Defined.

Lemma has_sep_false_upto (b : string) :
  has_sep b = false -> upto_last_sep b = "".
Proof. destruct b as [|c b]; [reflexivity|]. simpl. now intros ->. Qed.

Lemma has_sep_app_sep (a b : string) : has_sep (a ++ String sep b) = true.
Proof.
  induction a as [|c a IH]; [reflexivity|].
  simpl. rewrite IH. apply orb_true_r.
Qed.

(** The head [dirname] cuts off: everything up to the last slash. *)
Lemma upto_last_sep_app (a b : string) :
  has_sep b = false ->
  upto_last_sep (a ++ String sep b) = (a ++ String sep "")%string.
Proof.
  intros Hb. induction a as [|c a IH].
  - simpl. now rewrite (has_sep_false_upto _ Hb).
  - change (upto_last_sep (String c (a ++ String sep b))
            = String c (a ++ String sep "")).
    change (upto_last_sep (String c (a ++ String sep b)))
      with (if has_sep (String c (a ++ String sep b))
            then String c (upto_last_sep (a ++ String sep b)) else "").
    change (has_sep (String c (a ++ String sep b)))
      with (is_sep c || has_sep (a ++ String sep b)).
    now rewrite has_sep_app_sep, orb_true_r, IH.
Qed.

Lemma rstrip_snoc_sep (a : string) : rstrip (a ++ String sep "") = rstrip a.
Proof.
  induction a as [|c a IH]; [reflexivity|].
  simpl. now rewrite IH.
Qed.

Lemma rstrip_keeps (a : string) : endswith_sep a = false -> rstrip a = a.
Proof.
  induction a as [|c a IH]; [reflexivity|].
  destruct a as [|d a].
  - simpl. now intros ->.
  - intros H.
    change (rstrip (String c (String d a)))
      with (let r := rstrip (String d a) in
            if is_sep c && String.eqb r "" then "" else String c r).
    rewrite (IH H). simpl. now rewrite andb_false_r.
Qed.

Lemma no_sep_no_trailing_sep (c : string) :
  has_sep c = false -> endswith_sep c = false.
Proof.
  induction c as [|a c IH]; [reflexivity|].
  simpl. intros H. apply orb_false_iff in H. destruct H as [Ha Hc].
  destruct c; [exact Ha | now apply IH].
Qed.

Lemma join_with_snoc (l : list string) (b : string) :
  l <> [] ->
  join_with "/" (l ++ [b]) = (join_with "/" l ++ String sep b)%string.
Proof.
  unfold join_with. induction l as [|c l IH]; [congruence|]. intros _.
  destruct l as [|d l].
  - reflexivity.
  - change (String.concat "/" ((c :: d :: l) ++ [b]))
      with (c ++ String sep (String.concat "/" ((d :: l) ++ [b])))%string.
    rewrite IH by discriminate.
    change (String.concat "/" (c :: d :: l))
      with (c ++ String sep (String.concat "/" (d :: l)))%string.
    now rewrite append_assoc.
Qed.

Lemma split_join_with (l : list string) :
  l <> [] -> forallb good_name l = true -> split (join_with "/" l) = l.
Proof.
  unfold join_with. induction l as [|c l IH]; [congruence|]. intros _ H.
  simpl in H. apply andb_true_iff in H. destruct H as [Hc Hl].
  apply good_name_spec in Hc. destruct Hc as (_ & _ & _ & Hc).
  destruct l as [|d l].
  - simpl. now apply split_no_sep.
  - change (String.concat "/" (c :: d :: l))
      with (c ++ String sep (String.concat "/" (d :: l)))%string.
    rewrite split_app_sep, (split_no_sep _ Hc), IH; [reflexivity| |exact Hl].
    discriminate.
Qed.

(** An absolute path made of proper names does not end in a slash and is
    not made of slashes only. *)
Lemma named_path_ends (l : list string) :
  l <> [] -> forallb good_name l = true ->
  endswith_sep (String sep (join_with "/" l)) = false
  /\ all_sep (String sep (join_with "/" l)) = false
  /\ exists c s, join_with "/" l = String c s /\ is_sep c = false.
Proof.
  intros Hn Hg.
  destruct (exists_last Hn) as (l' & b & ->).
  rewrite forallb_app in Hg. apply andb_true_iff in Hg.
  destruct Hg as [Hl' Hb]. simpl in Hb. rewrite andb_true_r in Hb.
  apply good_name_spec in Hb. destruct Hb as (Hb0 & _ & _ & Hbs).
  assert (Hhead : exists c s, join_with "/" (l' ++ [b]) = String c s
                              /\ is_sep c = false).
  { destruct l' as [|a l'].
    - simpl. destruct b as [|c b]; [discriminate|].
      exists c, b. split; [reflexivity|]. simpl in Hbs.
      now apply orb_false_iff in Hbs.
    - simpl in Hl'. apply andb_true_iff in Hl'. destruct Hl' as [Ha _].
      apply good_name_spec in Ha. destruct Ha as (Ha0 & _ & _ & Has).
      destruct a as [|c a]; [discriminate|].
      simpl in Has. apply orb_false_iff in Has. destruct Has as [Hc _].
      unfold join_with. destruct (l' ++ [b]) as [|d m] eqn:E.
      + exfalso. destruct l'; discriminate E.
      + exists c, (a ++ String sep (String.concat "/" (d :: m)))%string.
        split; [|exact Hc]. simpl. rewrite E. reflexivity. }
  split; [|split; [|exact Hhead]].
  - destruct l' as [|a l'].
    + simpl. destruct b as [|c b]; [discriminate|].
      exact (no_sep_no_trailing_sep (String c b) Hbs).
    + rewrite join_with_snoc by discriminate.
      rewrite <- append_assoc_sep.
      change (endswith_sep
                ((String sep (join_with "/" (a :: l') ++ String sep "")) ++ b)
              = false).
      rewrite (endswith_sep_app_nonempty _ b Hb0).
      now apply no_sep_no_trailing_sep.
  - destruct Hhead as (c & s0 & -> & Hc). simpl. now rewrite Hc.
Qed.

Lemma norm_fold_names b (l acc : list string) :
  forallb good_name l = true ->
  fold_left (norm_step b) l acc = acc ++ l.
Proof.
  revert acc. induction l as [|c l IH]; intros acc H; simpl.
  - now rewrite app_nil_r.
  - simpl in H. apply andb_true_iff in H. destruct H as [Hc Hl].
    rewrite (IH _ Hl). apply good_name_spec in Hc.
    destruct Hc as (E0 & E1 & E2 & _).
    unfold norm_step. rewrite E0, E1, E2. simpl. now rewrite <- app_assoc.
Qed.

Lemma norm_step_dotdot (acc : list string) :
  forallb good_name acc = true ->
  norm_step true acc ".." = removelast acc.
Proof.
  intros H. unfold norm_step. simpl.
  destruct acc as [|a acc]; [reflexivity|].
  now rewrite (last_good (a :: acc)); [|discriminate|exact H].
Qed.

Lemma initial_slashes_one c s :
  is_sep c = false -> initial_slashes (String sep (String c s)) = 1.
Proof. intros H. destruct s; simpl; now rewrite H. Qed.

(** [dirname] of an absolute path made of proper names drops the last
    name. *)
Lemma dirname_named (init : list string) (base : string) :
  init <> [] -> forallb good_name init = true -> good_name base = true ->
  dirname (String sep (join_with "/" (init ++ [base])))
  = String sep (join_with "/" init).
Proof.
  intros Hn Hg Hb. apply good_name_spec in Hb. destruct Hb as (_ & _ & _ & Hb).
  destruct (named_path_ends init Hn Hg) as (He & Ha & _).
  rewrite (join_with_snoc init base Hn). unfold dirname.
  change (String sep (join_with "/" init ++ String sep base))
    with (String sep (join_with "/" init) ++ String sep base)%string.
  rewrite (upto_last_sep_app _ base Hb).
  assert (Hall : all_sep (String sep (join_with "/" init) ++ String sep "")
                 = false).
  { destruct (named_path_ends init Hn Hg) as (_ & _ & c & s0 & -> & Hc).
    simpl. now rewrite Hc. }
  rewrite Hall.
  assert (C : negb (String.eqb
                      (String sep (join_with "/" init) ++ String sep "") "")
              = true) by reflexivity.
  rewrite C. cbn [negb andb].
  rewrite rstrip_snoc_sep. now apply rstrip_keeps.
Qed.

(** The path [__init__] computes for a file at [/c1/.../cn]. *)
Lemma abspath_two_levels_up cwd comps :
  comps <> [] ->
  forallb good_name comps = true ->
  abspath cwd (join (dirname ("/" ++ join_with "/" comps)) "..")
  = ("/" ++ join_with "/" (removelast (removelast comps)))%string.
Proof.
  intros Hn Hg.
  change ("/" ++ join_with "/" comps)%string
    with (String sep (join_with "/" comps)).
  destruct (exists_last Hn) as (init & base & ->).
  rewrite removelast_last.
  rewrite forallb_app in Hg. apply andb_true_iff in Hg.
  destruct Hg as [Hi Hb]. simpl in Hb. rewrite andb_true_r in Hb.
  assert (Hcase : init = [] \/ init <> [])
    by (destruct init; [now left | right; discriminate]).
  destruct Hcase as [-> | Hi0].
  - (* the file lies in [/] *)
    pose proof Hb as Hb'. apply good_name_spec in Hb'.
    destruct Hb' as (_ & _ & _ & Hs).
    assert (D : dirname (String sep (join_with "/" ([] ++ [base]))) = "/").
    { pose proof (upto_last_sep_app "" base Hs) as U.
      change (upto_last_sep (String sep base) = "/") in U.
      change (join_with "/" ([] ++ [base])) with base.
      unfold dirname. now rewrite U. }
    rewrite D. reflexivity.
  - rewrite (dirname_named init base Hi0 Hi Hb).
    destruct (named_path_ends init Hi0 Hi) as (He & _ & c & s0 & Ej & Hc).
    assert (J : join (String sep (join_with "/" init)) ".."
                = (String sep (join_with "/" init) ++ String sep "..")%string).
    { unfold join. simpl startswith_sep. cbv iota.
      rewrite He. reflexivity. }
    rewrite J. unfold abspath.
    assert (A : isabs (String sep (join_with "/" init) ++ String sep "..")
                = true) by reflexivity.
    rewrite A. unfold normpath.
    assert (N : String.eqb (String sep (join_with "/" init) ++ String sep "..")
                           "" = false) by reflexivity.
    rewrite N.
    assert (I : initial_slashes
                  (String sep (join_with "/" init) ++ String sep "..") = 1).
    { rewrite Ej. exact (initial_slashes_one c _ Hc). }
    rewrite I.
    assert (S : split (String sep (join_with "/" init) ++ String sep "..")
                = "" :: init ++ [".."]).
    { rewrite split_app_sep.
      change (split (String sep (join_with "/" init)))
        with ("" :: split (join_with "/" init)).
      now rewrite (split_join_with init Hi0 Hi). }
    rewrite S.
    assert (F : fold_left
                  (norm_step
                     (startswith_sep
                        (String sep (join_with "/" init) ++ String sep "..")))
                  ("" :: init ++ [".."]) []
                = removelast init).
    { change (startswith_sep
                (String sep (join_with "/" init) ++ String sep "..")) with true.
      change (fold_left (norm_step true) ("" :: init ++ [".."]) [])
        with (fold_left (norm_step true) (init ++ [".."]) []).
      rewrite fold_left_app, (norm_fold_names true init [] Hi). simpl.
      now apply norm_step_dotdot. }
    rewrite F. reflexivity.
Qed.

(** X15: for a module file at [/c1/.../cn] (proper names, as the import
    system gives [__file__]), [__init__] sets [root_dir] two levels up, to
    [/c1/.../c(n-2)]: the directory that holds the directory of the file.
    With fewer than three names the root is [/]. *)
Theorem root_dir_is_two_levels_up e comps st0 :
  comps <> [] ->
  forallb good_name comps = true ->
  root_dir (self (snd (__init__ e ("/" ++ join_with "/" comps) st0)))
  = ("/" ++ join_with "/" (removelast (removelast comps)))%string.
Proof.
  intros Hn Hg. unfold __init__, set_root_dir. cbn [snd self root_dir].
  now apply abspath_two_levels_up.
Qed.

Lemma root_dir_is_two_levels_up_witness :
  forallb good_name ["srv"; "app"; "plugins"; "repo_file_plugin.py"] = true
  /\ root_dir
       (self (snd (__init__ Sample.machine
                     ("/" ++ join_with "/"
                               ["srv"; "app"; "plugins"; "repo_file_plugin.py"])
                     Sample.fresh)))
     = ("/" ++ join_with "/" ["srv"; "app"])%string.
Proof.
  split; [reflexivity|].
  refine (root_dir_is_two_levels_up Sample.machine
            ["srv"; "app"; "plugins"; "repo_file_plugin.py"] Sample.fresh
            _ eq_refl).
  discriminate.
Defined.

(** The root, joined with the last two names of the module's path, is
    that path again. *)
Lemma own_file_path (pre : list string) (pkg base : string) :
  forallb good_name (pre ++ [pkg; base]) = true ->
  join ("/" ++ join_with "/" pre) (join pkg base)
  = ("/" ++ join_with "/" (pre ++ [pkg; base]))%string.
Proof.
  intros Hg. rewrite forallb_app in Hg. apply andb_true_iff in Hg.
  destruct Hg as [Hpre Hpb]. simpl in Hpb. rewrite andb_true_r in Hpb.
  apply andb_true_iff in Hpb. destruct Hpb as [Hp Hb].
  pose proof (good_name_rel _ Hb) as Hbrel.
  pose proof (good_name_spec _ Hp) as (Hp0 & _ & _ & Hps).
  assert (Jpb : join pkg base = (pkg ++ String sep base)%string).
  { unfold join. unfold isabs in Hbrel. rewrite Hbrel, Hp0.
    now rewrite (no_sep_no_trailing_sep _ Hps). }
  assert (Rel : startswith_sep (pkg ++ String sep base) = false).
  { pose proof (good_name_rel _ Hp) as Hprel. unfold isabs in Hprel.
    destruct pkg; [discriminate | exact Hprel]. }
  rewrite Jpb. unfold join. rewrite Rel.
  assert (Hcase : pre = [] \/ pre <> [])
    by (destruct pre; [now left | right; discriminate]).
  destruct Hcase as [-> | Hn].
  - reflexivity.
  - destruct (named_path_ends pre Hn Hpre) as (He & _ & _).
    change ("/" ++ join_with "/" pre)%string
      with (String sep (join_with "/" pre)).
    rewrite He. cbn [String.eqb orb].
    change (pre ++ [pkg; base]) with (pre ++ [pkg] ++ [base]).
    rewrite app_assoc, join_with_snoc, (join_with_snoc pre pkg Hn).
    + simpl. now rewrite !append_assoc.
    + destruct pre; discriminate.
Qed.

(** X16: the plugin can read its own source by the path [TASK] in
    [main.py] gives for it: after [__init__] for a module file at
    [/c1/.../pkg/base], [read_file_by_path] of [join pkg base] goes to that
    very file, and returns its text when it can be read. *)
Theorem module_file_is_read_by_its_package_path e pre pkg base st0 text :
  forallb good_name (pre ++ [pkg; base]) = true ->
  read_text e ("/" ++ join_with "/" (pre ++ [pkg; base])) = Ok text ->
  join (root_dir
          (self (snd (__init__ e ("/" ++ join_with "/" (pre ++ [pkg; base]))
                        st0))))
       (join pkg base)
  = ("/" ++ join_with "/" (pre ++ [pkg; base]))%string
  /\ fst (read_file_by_path e (join pkg base)
            (snd (__init__ e ("/" ++ join_with "/" (pre ++ [pkg; base])) st0)))
     = Ok text.
Proof.
  intros Hg Ht.
  assert (R : root_dir
                (self (snd (__init__ e
                              ("/" ++ join_with "/" (pre ++ [pkg; base])) st0)))
              = ("/" ++ join_with "/" pre)%string).
  { unfold __init__, set_root_dir. cbn [snd self root_dir].
    rewrite abspath_two_levels_up; [|destruct pre; discriminate|exact Hg].
    change (pre ++ [pkg; base]) with (pre ++ [pkg] ++ [base]).
    now rewrite app_assoc, !removelast_last. }
  split.
  - rewrite R. now apply own_file_path.
  - rewrite read_file_by_path_eq. cbn zeta. rewrite R, (own_file_path _ _ _ Hg).
    now rewrite Ht.
Qed.

Lemma module_file_is_read_by_its_package_path_witness :
  forallb good_name (["srv"; "app"] ++ ["plugins"; "repo_file_plugin.py"]) = true
  /\ read_text Sample.machine
       ("/" ++ join_with "/"
                 (["srv"; "app"] ++ ["plugins"; "repo_file_plugin.py"]))
     = Ok "import os"
  /\ fst (read_file_by_path Sample.machine
            (join "plugins" "repo_file_plugin.py")
            (snd (__init__ Sample.machine
                    ("/" ++ join_with "/"
                              (["srv"; "app"]
                                 ++ ["plugins"; "repo_file_plugin.py"]))
                    Sample.fresh)))
     = Ok "import os".
Proof.
  split; [reflexivity|]. split; [reflexivity|].
  exact (proj2 (module_file_is_read_by_its_package_path
                  Sample.machine ["srv"; "app"] "plugins" "repo_file_plugin.py"
                  Sample.fresh "import os" eq_refl eq_refl)).
Defined.

Example root_dir_from_a_relative_file :
  root_dir (self (snd (__init__ Sample.machine "plugins/x.py" Sample.fresh)))
  = "/home/u".
Proof. reflexivity. Qed.

End RootDirectory.
